(** * mdai/client.py: export-job manager, retry policy and downloader

    A shallow embedding of [src/mdai/client.py].  Python objects that the
    code inspects (JSON bodies, exceptions) are inductive values; the
    effects of a method (HTTP posts, prints, timers, threads, file writes,
    sleeps) are recorded in a trace threaded through a small
    reader/state/error monad.  Whatever the interpreter, the network and
    the file system decide is read from an environment record. *)

From Stdlib Require Import ZArith QArith String Ascii List Bool Lia.
From Stdlib Require Import DecimalString.
Import ListNotations.

Local Open Scope string_scope.
Local Open Scope Z_scope.
Set Warnings "-register-all".

(** ** Python exceptions *)

(** The exception classes the module names or can meet.  [OSError_] is also
    [IOError] (one class in Python 3). *)
Inductive exc_class : Type :=
| Exception_
| ValueError_
| TypeError_
| LookupError_
| KeyError_
| NameError_
| AttributeError_
| ArithmeticError_
| OverflowError_
| OSError_
| JSONDecodeError_
| BadZipFile_
| RetryError_
| RequestException_
| Requests_HTTPError
| Requests_ConnectionError
| Requests_Timeout
| Requests_ConnectTimeout
| Requests_ReadTimeout
| Requests_ChunkedEncodingError
| Urllib3_HTTPError
| Urllib3_ProtocolError.

Scheme Equality for exc_class.

(** Proper ancestors of a class (its method resolution order without the
    class itself and without [BaseException] and [object]). *)
Definition mro (c : exc_class) : list exc_class :=
  match c with
  | Exception_ => []
  | ValueError_ | TypeError_ | LookupError_ | NameError_ | AttributeError_
  | ArithmeticError_ | OSError_ | BadZipFile_ | RetryError_
  | Urllib3_HTTPError => [Exception_]
  | KeyError_ => [LookupError_; Exception_]
  | OverflowError_ => [ArithmeticError_; Exception_]
  | JSONDecodeError_ => [ValueError_; Exception_]
  | RequestException_ => [OSError_; Exception_]
  | Requests_HTTPError | Requests_ConnectionError | Requests_Timeout
  | Requests_ChunkedEncodingError => [RequestException_; OSError_; Exception_]
  | Requests_ConnectTimeout =>
      [Requests_ConnectionError; Requests_Timeout; RequestException_;
       OSError_; Exception_]
  | Requests_ReadTimeout =>
      [Requests_Timeout; RequestException_; OSError_; Exception_]
  | Urllib3_ProtocolError => [Urllib3_HTTPError; Exception_]
  end.

Definition issubclass (c d : exc_class) : bool :=
  exc_class_beq c d || existsb (exc_class_beq d) (mro c).

(** An exception instance: its class and its message.  The messages of
    errors raised by the interpreter or by a library depend on their
    version; they are left empty and only the class is modelled. *)
Record exception : Type := Exc { exc_cls : exc_class; exc_msg : string }.

Definition isinstance (e : exception) (c : exc_class) : bool :=
  issubclass (exc_cls e) c.

(** ** Python values *)

Inductive pyfloat : Type :=
| Finite (q : Q)
| Inf (negative : bool)
| NaN.

(** What [json()] can return; a dict keeps its items as an association
    list, looked up from the front. *)
Inductive pyval : Type :=
| PyNone
| PyBool (b : bool)
| PyInt (z : Z)
| PyFloat (f : pyfloat)
| PyStr (s : string)
| PyList (l : list pyval)
| PyDict (items : list (string * pyval)).

Inductive result (A : Type) : Type :=
| Ok (a : A)
| Raise (e : exception).
Arguments Ok {A} a.
Arguments Raise {A} e.

Definition rbind {A B} (r : result A) (k : A -> result B) : result B :=
  match r with
  | Ok a => k a
  | Raise e => Raise e
  end.

Notation "r >>= k" := (rbind r k) (at level 58, left associativity).

(** Truth value of an object ([if x], [not x]). *)
Definition truthy (v : pyval) : bool :=
  match v with
  | PyNone => false
  | PyBool b => b
  | PyInt z => negb (z =? 0)
  | PyFloat (Finite q) => negb (Qnum q =? 0)
  | PyFloat _ => true
  | PyStr s => negb (String.eqb s EmptyString)
  | PyList l => match l with [] => false | _ => true end
  | PyDict d => match d with [] => false | _ => true end
  end.

Fixpoint assoc (k : string) (d : list (string * pyval)) : option pyval :=
  match d with
  | [] => None
  | (k', v) :: d' => if String.eqb k k' then Some v else assoc k d'
  end.

(** [v[k]] for a string key [k]. *)
Definition getitem (v : pyval) (k : string) : result pyval :=
  match v with
  | PyDict d =>
      match assoc k d with
      | Some x => Ok x
      | None => Raise (Exc KeyError_ EmptyString)
      end
  | _ => Raise (Exc TypeError_ EmptyString)
  end.

(** [v == s] for a string literal [s]. *)
Definition eq_str (v : pyval) (s : string) : bool :=
  match v with
  | PyStr s' => String.eqb s' s
  | _ => false
  end.

(** [k in v] for a string literal [k]. *)
Definition contains (k : string) (v : pyval) : result bool :=
  match v with
  | PyDict d => Ok (match assoc k d with Some _ => true | None => false end)
  | PyList l => Ok (existsb (fun x => eq_str x k) l)
  | PyStr s => Ok (match index 0 k s with Some _ => true | None => false end)
  | _ => Raise (Exc TypeError_ EmptyString)
  end.

(** [str(z)] for an int. *)
Definition str_of_int (z : Z) : string := NilZero.string_of_int (Z.to_int z).

(** [int(f)] for a float: truncation towards zero. *)
Definition int_of_float (f : pyfloat) : result Z :=
  match f with
  | Finite q => Ok (Z.quot (Qnum q) (Z.pos (Qden q)))
  | Inf _ => Raise (Exc OverflowError_ EmptyString)
  | NaN => Raise (Exc ValueError_ EmptyString)
  end.

Fixpoint spaces (n : nat) : string :=
  match n with
  | O => EmptyString
  | S n' => String " " (spaces n')
  end.

(** [s.ljust(width)] *)
Definition ljust (s : string) (width : nat) : string :=
  s ++ spaces (width - String.length s).

(** ** Effects *)

(** What a started timer or thread will run. *)
Inductive callback : Type :=
| check_progress_target
| download_file_target (file_key : pyval).

(** The observable actions of the module, in the order they happen. *)
Inductive event : Type :=
| Post (url : string) (json : pyval) (headers : pyval)
| Get (url : string) (headers : pyval)
| Print (text : string) (end_ : string)
| Sleep (ms : Z)
| TimerStart (seconds : Q) (target : callback)
| ThreadStart (target : callback)
| FileOpen (path : string)
| FileWrite (path : string) (data : list Byte.byte)
| ExtractAll (archive : string) (dest : string)
| ReadySet.

Record response : Type := Response {
  status_code : Z;
  json : result pyval
}.

(** A streamed [requests.get] reply: the content-length header if any, the
    blocks [iter_content] yields, and the error that ends the stream early
    if there is one. *)
Record stream : Type := Stream {
  content_length : option string;
  iter_content : list (list Byte.byte);
  stream_error : option exception
}.

(** Everything decided outside the module. *)
Record env : Type := Env {
  (** [int(s)] on a [str]; [None] stands for [ValueError] *)
  int_of_str : string -> option Z;
  (** [arrow.now().shift(seconds=s).humanize(only_distance=True)]; arrow
      raises when the shifted date leaves the range it supports *)
  humanize : Z -> result string;
  (** [os.path.exists] *)
  path_exists : string -> bool;
  (** [requests.utils.quote] *)
  quote : string -> string;
  (** reply of the session to its [n]-th post (counted from 0) *)
  session_post : nat -> string -> result response;
  (** reply of [requests.get(url, stream=True)] *)
  requests_get : string -> result stream;
  (** error of [open(path, "wb")] if it fails *)
  open_wb : string -> option exception;
  (** error of [ZipFile(archive).extractall(dest)] if it fails *)
  extractall : string -> string -> option exception
}.

(** The mutable state: the number of posts made so far, the trace, and the
    two attributes of a manager that change after construction. *)
Record world : Type := World {
  posts : nat;
  out : list event;
  data_path : option string;
  ready : bool
}.

Definition world0 : world :=
  {| posts := 0%nat; out := []; data_path := None; ready := false |}.

Definition M (A : Type) : Type := env -> world -> result A * world.

Definition ret {A} (a : A) : M A := fun _ w => (Ok a, w).

Definition bind {A B} (m : M A) (k : A -> M B) : M B :=
  fun E w =>
    match m E w with
    | (Ok a, w') => k a E w'
    | (Raise e, w') => (Raise e, w')
    end.

Declare Scope py_scope.
Delimit Scope py_scope with py.
Notation "x <- c ;; k" := (bind c (fun x => k))
  (at level 61, c at next level, right associativity) : py_scope.
Notation "c ;; k" := (bind c (fun _ => k))
  (at level 61, right associativity) : py_scope.
Local Open Scope py_scope.

Definition raise {A} (e : exception) : M A := fun _ w => (Raise e, w).

Definition lift {A} (r : result A) : M A := fun _ w => (r, w).

Definition ask : M env := fun E w => (Ok E, w).

Definition emit (ev : event) : M unit :=
  fun _ w =>
    (Ok tt, {| posts := posts w; out := out w ++ [ev];
               data_path := data_path w; ready := ready w |}).

(** [try: body  except classes: handler] *)
Definition try_except {A} (body : M A) (classes : list exc_class)
    (handler : M A) : M A :=
  fun E w =>
    match body E w with
    | (Raise e, w') =>
        if existsb (isinstance e) classes then handler E w'
        else (Raise e, w')
    | r => r
    end.

(** [session.post(url, json=json, headers=headers)] *)
Definition post (url : string) (json headers : pyval) : M response :=
  fun E w =>
    (session_post E (posts w) url,
     {| posts := S (posts w); out := out w ++ [Post url json headers];
        data_path := data_path w; ready := ready w |}).

(** [int(v)] *)
Definition py_int (E : env) (v : pyval) : result Z :=
  match v with
  | PyBool b => Ok (if b then 1 else 0)
  | PyInt z => Ok z
  | PyFloat f => int_of_float f
  | PyStr s =>
      match int_of_str E s with
      | Some z => Ok z
      | None => Raise (Exc ValueError_ EmptyString)
      end
  | PyNone | PyList _ | PyDict _ => Raise (Exc TypeError_ EmptyString)
  end.

Definition int (v : pyval) : M Z :=
  E <- ask ;;
  lift (py_int E v).

(** ** Traces *)

Definition sleeps (evs : list event) : list Z :=
  flat_map (fun ev => match ev with Sleep ms => [ms] | _ => [] end) evs.

Definition is_post_to (url : string) (ev : event) : bool :=
  match ev with
  | Post u _ _ => String.eqb u url
  | _ => false
  end.

(** The number of posts to [url] in a trace. *)
Definition count_posts (url : string) (evs : list event) : nat :=
  List.length (filter (is_post_to url) evs).

Definition timers (evs : list event) : list event :=
  filter (fun ev => match ev with TimerStart _ _ => true | _ => false end) evs.

Definition prints (evs : list event) : list event :=
  filter (fun ev => match ev with Print _ _ => true | _ => false end) evs.

(** ** [retry_on_http_error] *)

Definition valid_exceptions : list exc_class :=
  [Requests_HTTPError; Requests_ConnectionError; Urllib3_HTTPError].

Definition retry_on_http_error (exception : exception) : bool :=
  existsb (fun e => isinstance exception e) valid_exceptions.

(** ** The [retrying] package: [Retrying.call]

    The decorator [@retry(...)] runs the decorated function through
    [Retrying(...).call].  With the keyword arguments the module passes,
    the stop function is [stop_after_attempt], the wait function is
    [exponential_sleep], no result is rejected and exceptions are not
    wrapped. *)
Module Retrying.
Section Call.
Variable retry_on_exception : exception -> bool.
Variable wait_exponential_multiplier : Z.
Variable wait_exponential_max : Z.
Variable stop_max_attempt_number : Z.

Definition stop_after_attempt (previous_attempt_number : Z) : bool :=
  stop_max_attempt_number <=? previous_attempt_number.

Definition exponential_sleep (previous_attempt_number : Z) : Z :=
  let exp := 2 ^ previous_attempt_number in
  let result := wait_exponential_multiplier * exp in
  let result :=
    if wait_exponential_max <? result then wait_exponential_max
    else result in
  if result <? 0 then 0 else result.

Definition should_reject {A} (attempt : result A) : bool :=
  match attempt with
  | Raise e => retry_on_exception e
  | Ok _ => false
  end.

(** The [while True] loop of [call]; [None] when [fuel] runs out. *)
Fixpoint call {A} (fuel : nat) (fn : M A) (attempt_number : Z)
    : M (option A) :=
  match fuel with
  | O => ret None
  | S fuel' =>
      fun E w =>
        let (attempt, w1) := fn E w in
        if negb (should_reject attempt) then
          match attempt with
          | Ok a => (Ok (Some a), w1)
          | Raise e => (Raise e, w1)
          end
        else if stop_after_attempt attempt_number then
          match attempt with
          | Raise e => (Raise e, w1)
          | Ok _ => (Raise (Exc RetryError_ EmptyString), w1)
          end
        else
          (emit (Sleep (exponential_sleep attempt_number)) ;;
           call fuel' fn (attempt_number + 1)) E w1
  end.
End Call.
End Retrying.

(** ** [class Client] *)
Module Client.

Record client : Type := {
  domain : string;
  access_token : pyval
}.

Definition _create_headers (self : client) : list (string * pyval) :=
  if truthy (access_token self)
  then [("x-access-token", access_token self)]
  else [].

(** [r.raise_for_status()] *)
Definition raise_for_status (r : response) : result unit :=
  if (400 <=? status_code r) && (status_code r <? 600)
  then Raise (Exc Requests_HTTPError EmptyString)
  else Ok tt.

(** What the function under the decorator does with the reply. *)
Definition gql_reply (r : response) : result (pyval * pyval) :=
  (if negb (status_code r =? 200) then raise_for_status r else Ok tt) >>= fun _ =>
  json r >>= fun body =>
  contains "data" body >>= fun has_data =>
  (if has_data : bool then getitem body "data" else Ok PyNone) >>= fun data =>
  contains "errors" body >>= fun has_errors =>
  (if has_errors : bool then getitem body "errors" else Ok PyNone)
    >>= fun errors =>
  Ok (data, errors).

Definition gql_endpoint (self : client) : string :=
  "https://" ++ domain self ++ "/api/graphql".

Definition gql_headers (self : client) : pyval :=
  PyDict
    (_create_headers self ++
     [("Accept", PyStr "application/json");
      ("Content-Type", PyStr "application/json")])%list.

(** The function under the decorator: one execution of the query. *)
Definition gql_once (self : client) (query variables : pyval)
    : M (pyval * pyval) :=
  let data := PyDict [("query", query); ("variables", variables)] in
  r <- post (gql_endpoint self) data (gql_headers self) ;;
  lift (gql_reply r).

Definition multiplier : Z := 100.
Definition max_wait : Z := 1000.
Definition max_attempts : Z := 10.

(** [_gql] as decorated; ten rounds of the loop are enough (see
    [_gql_returns]). *)
Definition _gql (self : client) (query variables : pyval)
    : M (option (pyval * pyval)) :=
  Retrying.call retry_on_http_error multiplier max_wait max_attempts
    10 (gql_once self query variables) 1.

(** The outcome of the execution that makes the session's [i]-th post. *)
Definition attempt (self : client) (E : env) (i : nat)
    : result (pyval * pyval) :=
  session_post E i (gql_endpoint self) >>= gql_reply.

(** Is this outcome one the policy retries? *)
Definition rejected {A} (attempt : result A) : bool :=
  Retrying.should_reject retry_on_http_error attempt.

(** The wait after the attempt with the given number. *)
Definition wait (attempt_number : Z) : Z :=
  Retrying.exponential_sleep multiplier max_wait attempt_number.

(** The trace of [retries] failed executions followed by a last one, the
    first of them having the given attempt number; [p] is the post. *)
Fixpoint retry_trace (p : event) (attempt_number : Z) (retries : nat)
    : list event :=
  match retries with
  | O => [p]
  | S n =>
      p :: Sleep (wait attempt_number)
        :: retry_trace p (attempt_number + 1) n
  end.

(** What [_gql] returns for the outcome of its last execution. *)
Definition returned {A} (r : result A) : result (option A) :=
  match r with
  | Ok a => Ok (Some a)
  | Raise e => Raise e
  end.

(** The wait the specification gives for the [k]-th retry. *)
Definition spec_wait (k : Z) : Z := Z.min (100 * 2 ^ (k - 1)) 1000.

End Client.

(** ** [os.path] (POSIX flavour) *)
Module OsPath.

Definition startswith_sep (s : string) : bool :=
  match s with
  | String c _ => Ascii.eqb c "/"
  | EmptyString => false
  end.

Fixpoint endswith_sep (s : string) : bool :=
  match s with
  | EmptyString => false
  | String c EmptyString => Ascii.eqb c "/"
  | String _ s' => endswith_sep s'
  end.

(** [os.path.join(a, b)] *)
Definition join (a b : string) : string :=
  if startswith_sep b then b
  else if String.eqb a EmptyString || endswith_sep a then a ++ b
  else a ++ "/" ++ b.

Fixpoint rfind_from (c : ascii) (s : string) (i last : Z) : Z :=
  match s with
  | EmptyString => last
  | String a s' => rfind_from c s' (i + 1) (if Ascii.eqb a c then i else last)
  end.

(** [s.rfind(c)]: the last index of [c], or -1. *)
Definition rfind (c : ascii) (s : string) : Z := rfind_from c s 0 (-1).

(** The [while filenameIndex < dotIndex] loop of [genericpath._splitext]:
    is there a character other than a dot in [p[filenameIndex:dotIndex]]? *)
Fixpoint skip_leading_dots (p : string) (filenameIndex : nat) (n : nat)
    : bool :=
  match n with
  | O => false
  | S n' =>
      match String.get filenameIndex p with
      | Some c =>
          if negb (Ascii.eqb c ".") then true
          else skip_leading_dots p (S filenameIndex) n'
      | None => false
      end
  end.

(** [os.path.splitext(p)] *)
Definition splitext (p : string) : string * string :=
  let sepIndex := rfind "/" p in
  let dotIndex := rfind "." p in
  if (sepIndex <? dotIndex) &&
     skip_leading_dots p (Z.to_nat (sepIndex + 1))
       (Z.to_nat (dotIndex - (sepIndex + 1)))
  then (substring 0 (Z.to_nat dotIndex) p,
        substring (Z.to_nat dotIndex)
          (String.length p - Z.to_nat dotIndex) p)
  else (p, EmptyString).

End OsPath.

(** ** [class ProjectDataManager] *)
Module ProjectDataManager.

(** [__init__] admits only the strings 'images' and 'annotations' as
    [type], so the attribute is kept as an enumeration. *)
Inductive export_type : Type := images | annotations.

Definition type_name (t : export_type) : string :=
  match t with
  | images => "images"
  | annotations => "annotations"
  end.

Definition parse_type (s : string) : option export_type :=
  if String.eqb s "images" then Some images
  else if String.eqb s "annotations" then Some annotations
  else None.

Record manager : Type := {
  type : export_type;
  domain : string;
  project_id : string;
  path : string;
  headers : pyval
}.

(** [not x] for an argument that is [None] or a string. *)
Definition falsy (x : option string) : bool :=
  match x with
  | None => true
  | Some s => String.eqb s EmptyString
  end.

(** ["...".foramt(path)]: [str] has no attribute [foramt], so the
    attribute lookup raises. *)
Definition foramt (template arg : string) : M string :=
  raise (Exc AttributeError_ EmptyString).

(** The constructor.  The session it keeps or creates makes no request
    here and is not part of the result; data_path and _ready start as in
    [world0]. *)
Definition __init__ (type : string) (domain project_id : option string)
    (path : string) (headers : pyval) : M manager :=
  E <- ask ;;
  match parse_type type with
  | None => raise (Exc ValueError_ "type must be 'images' or 'annotations'.")
  | Some ty =>
      if falsy domain then raise (Exc ValueError_ "domain is not specified.")
      else if falsy project_id
      then raise (Exc ValueError_ "project_id is not specified.")
      else
        (if negb (path_exists E path) then
           msg <- foramt "Path '{}' does not exist." path ;;
           raise (Exc OSError_ msg)
         else ret tt) ;;
        ret {| type := ty;
               domain := match domain with Some d => d | None => EmptyString end;
               project_id :=
                 match project_id with Some i => i | None => EmptyString end;
               path := path;
               headers := headers |}
  end.

Definition _get_data_export_params (self : manager) : pyval :=
  match type self with
  | images =>
      PyDict [("projectHashId", PyStr (project_id self));
              ("exportFormat", PyStr "zip")]
  | annotations =>
      PyDict [("projectHashId", PyStr (project_id self));
              ("labelGroupNum", PyNone);
              ("exportFormat", PyStr "json")]
  end.

Definition export_error (self : manager) : exception :=
  Exc Exception_
    ("Error exporting " ++ type_name (type self) ++ " for project "
     ++ project_id self ++ ".").

Definition error_endpoint (self : manager) : string :=
  "https://" ++ domain self ++ "/api/data-export/" ++ type_name (type self)
  ++ "/error".

Definition _on_data_export_job_error (self : manager) : M unit :=
  let params := _get_data_export_params self in
  r <- post (error_endpoint self) params (headers self) ;;
  raise (export_error self).

(** A global name that is not defined: evaluating it raises [NameError]. *)
Definition undefined_name {A} (name : string) : M A :=
  raise (Exc NameError_ EmptyString).

Definition done_endpoint (self : manager) : string :=
  "https://" ++ domain self ++ "/api/data-export/" ++ type_name (type self)
  ++ "/done".

Definition _on_data_export_job_done (self : manager) : M unit :=
  let params := _get_data_export_params self in
  r <- post (done_endpoint self) params (headers self) ;;
  try_except
    (body <- lift (json r) ;;
     file_key <- lift (getitem body "fileKey") ;;
     if truthy file_key
     then emit (ThreadStart (download_file_target file_key))
     else ret tt)
    [TypeError_; KeyError_]
    (* self._on_data_export_job_error(type, project_id): the arguments are
       evaluated first, and project_id is not a name in scope *)
    (_ <- undefined_name (A := pyval) "project_id" ;;
     _on_data_export_job_error self).

Definition CR : string := String (ascii_of_nat 13) EmptyString.
Definition LF : string := String (ascii_of_nat 10) EmptyString.

(** [print(x)] with the default end. *)
Definition print (text : string) : M unit := emit (Print text LF).

Definition progress_endpoint (self : manager) : string :=
  "https://" ++ domain self ++ "/api/data-export/" ++ type_name (type self)
  ++ "/progress".

Definition time_remaining_fmt (E : env) (time_remaining : Z)
    : result string :=
  if 45 <? time_remaining then humanize E time_remaining
  else Ok ("in " ++ str_of_int time_remaining ++ " seconds").

Definition progress_line (self : manager) (progress : Z) (fmt : string)
    : string :=
  ljust
    ("Exporting " ++ type_name (type self) ++ " for project "
     ++ project_id self ++ "..." ++ str_of_int progress
     ++ "% (time remaining: " ++ fmt ++ ").")
    100.

(** [int(v) if v else 0], as a function of the environment. *)
Definition coerce (E : env) (v : pyval) : result Z :=
  if truthy v then py_int E v else Ok 0.

(** The rest of the branch for [status == "running"], once progress and
    time_remaining are integers: the progress line, then the timer. *)
Definition show_and_schedule (self : manager) (progress time_remaining : Z)
    : M unit :=
  (if (0 <? progress) && (progress <=? 100) && (0 <? time_remaining) then
     E <- ask ;;
     time_remaining_fmt <- lift (time_remaining_fmt E time_remaining) ;;
     let end_char := if progress <? 100 then CR else LF in
     emit (Print (progress_line self progress time_remaining_fmt) end_char)
   else ret tt) ;;
  if progress <? 100
  then emit (TimerStart 1%Q check_progress_target)
  else ret tt.

(** The branch for [status == "running"], given the raw progress and
    timeRemaining fields. *)
Definition on_running (self : manager) (progress time_remaining : pyval)
    : M unit :=
  progress <- (if truthy progress then int progress else ret 0) ;;
  time_remaining <-
    (if truthy time_remaining then int time_remaining else ret 0) ;;
  show_and_schedule self progress time_remaining.

Definition _check_data_export_job_progress (self : manager) : M unit :=
  let params := _get_data_export_params self in
  r <- post (progress_endpoint self) params (headers self) ;;
  parsed <-
    try_except
      (body <- lift (json r) ;;
       status <- lift (getitem body "status") ;;
       progress <- lift (getitem body "progress") ;;
       time_remaining <- lift (getitem body "timeRemaining") ;;
       ret (Some (status, progress, time_remaining)))
      [TypeError_; KeyError_]
      (_on_data_export_job_error self ;; ret None) ;;
  match parsed with
  | None => ret tt
  | Some (status, progress, time_remaining) =>
      if eq_str status "running" then on_running self progress time_remaining
      else if eq_str status "done" then _on_data_export_job_done self
      else if eq_str status "error" then _on_data_export_job_error self
      else ret tt
  end.

Definition create_endpoint (self : manager) : string :=
  "https://" ++ domain self ++ "/api/data-export/" ++ type_name (type self).

Definition create_data_export_job (self : manager) : M unit :=
  let params := _get_data_export_params self in
  r <- post (create_endpoint self) params (headers self) ;;
  if status_code r =? 202 then _check_data_export_job_progress self
  else _on_data_export_job_error self.

(** [requests.get(url, stream=True, headers=headers)] *)
Definition get (url : string) (headers : pyval) : M stream :=
  emit (Get url headers) ;;
  E <- ask ;;
  lift (requests_get E url).

(** [open(filepath, "wb")] *)
Definition open_ (filepath : string) : M unit :=
  emit (FileOpen filepath) ;;
  E <- ask ;;
  match open_wb E filepath with
  | Some e => raise e
  | None => ret tt
  end.

(** The body of the [for data in ...] loop over the blocks of the stream;
    the progress bar drawn around it is left out. *)
Fixpoint write_blocks (filepath : string) (blocks : list (list Byte.byte))
    (wrote : Z) : M Z :=
  match blocks with
  | [] => ret wrote
  | data :: rest =>
      let wrote := wrote + Z.of_nat (List.length data) in
      emit (FileWrite filepath data) ;;
      write_blocks filepath rest wrote
  end.

(** [with zipfile.ZipFile(filepath, "r") as f: f.extractall(dest)] *)
Definition extract (filepath dest : string) : M unit :=
  emit (ExtractAll filepath dest) ;;
  E <- ask ;;
  match extractall E filepath dest with
  | Some e => raise e
  | None => ret tt
  end.

Definition set_data_path (p : string) : M unit :=
  fun _ w =>
    (Ok tt, {| posts := posts w; out := out w;
               data_path := Some p; ready := ready w |}).

(** [self._ready.set()] *)
Definition set_ready : M unit :=
  fun _ w =>
    (Ok tt, {| posts := posts w; out := out w ++ [ReadySet];
               data_path := data_path w; ready := true |}).

Definition download_error (file_key : string) : exception :=
  Exc OSError_ ("Error downloading file " ++ file_key ++ ".").

(** [if total_size != 0 and wrote != total_size: raise IOError(...)] *)
Definition verify_size (file_key : string) (total_size wrote : Z) : M unit :=
  if negb (total_size =? 0) && negb (wrote =? total_size)
  then raise (download_error file_key)
  else ret tt.

Definition signed_url (self : manager) (E : env) (file_key : string)
    : string :=
  "https://" ++ domain self ++ "/api/project-files/signedurl/get?key="
  ++ quote E file_key.

(** The thread target, for a file key that is a string. *)
Definition _download_file (self : manager) (file_key : string) : M unit :=
  print ("Downloading file: " ++ file_key) ;;
  let filepath := OsPath.join (path self) file_key in
  E <- ask ;;
  let url := signed_url self E file_key in
  r <- get url (headers self) ;;
  total_size <-
    int (match content_length r with Some s => PyStr s | None => PyInt 0 end) ;;
  open_ filepath ;;
  wrote <- write_blocks filepath (iter_content r) 0 ;;
  match stream_error r with Some e => raise e | None => ret tt end ;;
  verify_size file_key total_size wrote ;;
  match type self with
  | images =>
      print ("Extracting archive: " ++ file_key) ;;
      extract filepath (path self) ;;
      set_data_path (fst (OsPath.splitext filepath))
  | annotations => set_data_path filepath
  end ;;
  set_ready.

(** *** Reading the methods *)

(** The world after a post of the manager to [url]. *)
Definition posted (self : manager) (url : string) (w : world) : world :=
  {| posts := S (posts w);
     out := out w ++ [Post url (_get_data_export_params self) (headers self)];
     data_path := data_path w; ready := ready w |}.

(** The world after more events. *)
Definition logged (evs : list event) (w : world) : world :=
  {| posts := posts w; out := out w ++ evs;
     data_path := data_path w; ready := ready w |}.

(** The remote calls of a manager that control the job. *)
Inductive job_control : Type := Create | Check | AckDone | AckError.

Definition run (c : job_control) (self : manager) : M unit :=
  match c with
  | Create => create_data_export_job self
  | Check => _check_data_export_job_progress self
  | AckDone => _on_data_export_job_done self
  | AckError => _on_data_export_job_error self
  end.

Definition endpoint (c : job_control) (self : manager) : string :=
  match c with
  | Create => create_endpoint self
  | Check => progress_endpoint self
  | AckDone => done_endpoint self
  | AckError => error_endpoint self
  end.


(** The three fields a progress reply must carry, when it carries them. *)
Definition progress_fields (reply : result response)
    : option (pyval * pyval * pyval) :=
  match reply with
  | Ok r =>
      match json r with
      | Ok body =>
          match getitem body "status", getitem body "progress",
                getitem body "timeRemaining" with
          | Ok st, Ok pv, Ok tv => Some (st, pv, tv)
          | _, _, _ => None
          end
      | Raise _ => None
      end
  | Raise _ => None
  end.

(** The progress line of the running branch for integer progress [p] and
    time remaining [t]: the events it adds when it can be formatted or
    is not due, the error of formatting the time otherwise. *)
Definition line_events (self : manager) (E : env) (p t : Z)
    : result (list event) :=
  if (0 <? p) && (p <=? 100) && (0 <? t)
  then time_remaining_fmt E t >>= fun fmt =>
       Ok [Print (progress_line self p fmt) (if p <? 100 then CR else LF)]
  else Ok [].

Definition timer_events (p : Z) : list event :=
  if p <? 100 then [TimerStart 1%Q check_progress_target] else [].

Definition clamp (lo hi x : Z) : Z := Z.max lo (Z.min hi x).

(** The running branch as the specification words it: progress clamped to
    [0,100] and timeRemaining to at least 0 before the line and the timer. *)
Definition on_running_clamped (self : manager)
    (progress time_remaining : pyval) : M unit :=
  progress <- (if truthy progress then int progress else ret 0) ;;
  time_remaining <-
    (if truthy time_remaining then int time_remaining else ret 0) ;;
  show_and_schedule self (clamp 0 100 progress) (Z.max 0 time_remaining).

(** The bytes written for the blocks of a stream. *)
Definition written (blocks : list (list Byte.byte)) : Z :=
  fold_right (fun data n => Z.of_nat (List.length data) + n) 0 blocks.

(** The declared total and the blocks of a download whose request is
    answered, whose content-length is absent or an integer, whose file
    opens and whose stream runs to its end. *)
Definition stream_completes (self : manager) (E : env) (file_key : string)
    : option (Z * list (list Byte.byte)) :=
  match requests_get E (signed_url self E file_key) with
  | Ok r =>
      match py_int E (match content_length r with
                      | Some s => PyStr s
                      | None => PyInt 0
                      end),
            open_wb E (OsPath.join (path self) file_key),
            stream_error r with
      | Ok total_size, None, None => Some (total_size, iter_content r)
      | _, _, _ => None
      end
  | Raise _ => None
  end.

(** The trace of a download up to the end of its stream. *)
Definition stream_events (self : manager) (E : env) (file_key : string)
    (blocks : list (list Byte.byte)) : list event :=
  let filepath := OsPath.join (path self) file_key in
  ([Print ("Downloading file: " ++ file_key) LF;
    Get (signed_url self E file_key) (headers self);
    FileOpen filepath] ++ map (FileWrite filepath) blocks)%list.

(** What follows the size check: extraction for images, the data path,
    the ready event. *)
Definition finish (self : manager) (file_key : string) : M unit :=
  let filepath := OsPath.join (path self) file_key in
  match type self with
  | images =>
      print ("Extracting archive: " ++ file_key) ;;
      extract filepath (path self) ;;
      set_data_path (fst (OsPath.splitext filepath))
  | annotations => set_data_path filepath
  end ;;
  set_ready.

End ProjectDataManager.

(** ** [Client.__init__] and [Client._test_endpoint] *)
Module ClientSession.

(** [s.endswith(suffix)] *)
Definition endswith (s suffix : string) : bool :=
  (String.length suffix <=? String.length s)%nat &&
  String.eqb
    (substring (String.length s - String.length suffix)
       (String.length suffix) s)
    suffix.

Section Session.
(** reply of [self.session.get(url, headers=...)] *)
Variable session_get : string -> result response.

Definition test_endpoint (self : Client.client) : string :=
  "https://" ++ Client.domain self ++ "/api/test".

Definition authorization_error : exception :=
  Exc Exception_ "Authorization error. Make sure your access token is valid.".

Definition _test_endpoint (self : Client.client) : M unit :=
  emit (Get (test_endpoint self) (PyDict (Client._create_headers self))) ;;
  r <- lift (session_get (test_endpoint self)) ;;
  if status_code r =? 200
  then ProjectDataManager.print
         ("Successfully authenticated to " ++ Client.domain self ++ ".")
  else raise authorization_error.

Definition __init__ (domain : string) (access_token : pyval)
    : M Client.client :=
  if negb (endswith domain ".md.ai")
  then raise (Exc ValueError_
                ("domain " ++ domain ++ " is invalid: should be format *.md.ai"))
  else
    let self :=
      {| Client.domain := domain; Client.access_token := access_token |} in
    _test_endpoint self ;;
    ret self.
End Session.

End ClientSession.

(** ** More on traces *)

Definition total (l : list Z) : Z := fold_right Z.add 0 l.

(** What an event does to the content of the file at [path]: opening it
    for writing truncates it, a write appends. *)
Definition file_step (path : string) (content : list Byte.byte) (ev : event)
    : list Byte.byte :=
  match ev with
  | FileOpen p => if String.eqb p path then [] else content
  | FileWrite p data =>
      if String.eqb p path then (content ++ data)%list else content
  | _ => content
  end.

(** The content a trace leaves in the file at [path], from a file that
    holds [content]. *)
Definition file_content (path : string) (content : list Byte.byte)
    (evs : list event) : list Byte.byte :=
  fold_left (file_step path) evs content.

Definition opened (evs : list event) : list string :=
  flat_map (fun ev => match ev with FileOpen p => [p] | _ => [] end) evs.

(** [d.get(k)] on the items of a dict. *)
Definition dict_get (d : list (string * pyval)) (k : string) : pyval :=
  match assoc k d with
  | Some x => x
  | None => PyNone
  end.

(** A body that is not a container: [None], a bool or a number. *)
Definition scalar (v : pyval) : bool :=
  match v with
  | PyNone | PyBool _ | PyInt _ | PyFloat _ => true
  | PyStr _ | PyList _ | PyDict _ => false
  end.

(** The most posts one job-control call can make. *)
Definition max_posts (c : ProjectDataManager.job_control) : nat :=
  match c with
  | ProjectDataManager.Create => 3
  | ProjectDataManager.Check => 2
  | ProjectDataManager.AckDone => 1
  | ProjectDataManager.AckError => 1
  end.

(** The events a job-control call of [self] may add to the trace: posts
    with its parameters and headers to one of its four endpoints, progress
    lines, the polling timer and the download thread. *)
Definition job_event (self : ProjectDataManager.manager) (ev : event) : Prop :=
  match ev with
  | Post u j h =>
      j = ProjectDataManager._get_data_export_params self /\
      h = ProjectDataManager.headers self /\
      exists c, u = ProjectDataManager.endpoint c self
  | Print _ _ => True
  | TimerStart seconds target =>
      seconds = 1%Q /\ target = check_progress_target
  | ThreadStart target => exists file_key, target = download_file_target file_key
  | _ => False
  end.

(** [w'] comes from [w] by at most [n] posts and by events a job-control
    call of [self] may add, with the data path and the ready flag kept. *)
Definition grows (self : ProjectDataManager.manager) (n : nat) (w w' : world)
    : Prop :=
  (posts w <= posts w' <= posts w + n)%nat /\
  data_path w' = data_path w /\
  ready w' = ready w /\
  exists evs, out w' = (out w ++ evs)%list /\ Forall (job_event self) evs.

(** ** Sample inputs *)
Module Samples.

Definition conn_err : exception := Exc Requests_ConnectionError EmptyString.

Definition decimal (s : string) : option Z :=
  option_map Z.of_int (NilZero.int_of_string s).

(** An environment whose session gives the listed replies in turn and
    refuses the connection afterwards; only "/dest" exists. *)
Definition sample_env (replies : list (result response))
    (download : result stream) : env :=
  {| int_of_str := decimal;
     humanize := fun _ => Ok "a minute";
     path_exists := fun p => String.eqb p "/dest";
     quote := fun s => s;
     session_post := fun n _ => nth n replies (Raise conn_err);
     requests_get := fun _ => download;
     open_wb := fun _ => None;
     extractall := fun _ _ => None |}.

Definition replied (status : Z) (body : pyval) : result response :=
  Ok (Response status (Ok body)).

Definition the_client : Client.client :=
  {| Client.domain := "public.md.ai"; Client.access_token := PyStr "token" |}.

Definition manager_of (t : ProjectDataManager.export_type)
    : ProjectDataManager.manager :=
  {| ProjectDataManager.type := t;
     ProjectDataManager.domain := "public.md.ai";
     ProjectDataManager.project_id := "abc123";
     ProjectDataManager.path := "/dest";
     ProjectDataManager.headers := PyDict [("x-access-token", PyStr "token")] |}.

Definition running (progress time_remaining : pyval) : pyval :=
  PyDict [("status", PyStr "running"); ("progress", progress);
          ("timeRemaining", time_remaining)].

(** Three transient failures (a 503 reply, a refused connection, a
    urllib3 protocol error), then an answer. *)
Definition flaky : list (result response) :=
  [replied 503 PyNone;
   Raise conn_err;
   Raise (Exc Urllib3_ProtocolError EmptyString);
   replied 200 (PyDict [("data", PyInt 1)])].

(** The session answers as in [flaky]. *)
Definition flaky_env : env := sample_env flaky (Raise conn_err).


(** The progress check is answered "running" with the given values. *)
Definition answers_running (progress time_remaining : Z) : env :=
  sample_env [replied 200 (running (PyInt progress) (PyInt time_remaining))]
    (Raise conn_err).

(** The done acknowledgment is answered by an object without fileKey. *)
Definition answers_no_key : env :=
  sample_env [replied 200 (PyDict [])] (Raise conn_err).

(** A download of [size] zero bytes in one block, with the given
    content-length header. *)
Definition serves (header : option string) (size : nat) : env :=
  sample_env []
    (Ok {| content_length := header;
           iter_content := [repeat Byte.x00 size];
           stream_error := None |}).

(** Every post is answered with status 503. *)
Definition unavailable : env :=
  sample_env (repeat (replied 503 PyNone) 10) (Raise conn_err).

(** The first post is answered with status [status] and body [body]. *)
Definition answers (status : Z) (body : pyval) : env :=
  sample_env [replied status body] (Raise conn_err).

(** A session whose GET is answered with the given status. *)
Definition get_answers (status : Z) (url : string) : result response :=
  replied status PyNone.

(** Creation is accepted, the first check reports done, and the done
    acknowledgment names the file. *)
Definition completes (file_key : pyval) : env :=
  sample_env
    [replied 202 PyNone;
     replied 200 (PyDict [("status", PyStr "done"); ("progress", PyInt 100);
                          ("timeRemaining", PyInt 0)]);
     replied 200 (PyDict [("fileKey", file_key)])]
    (Raise conn_err).

(** Creation is answered with [status]; later posts are answered 200. *)
Definition creation_answered (status : Z) : env :=
  sample_env [replied status PyNone; replied 200 PyNone] (Raise conn_err).

(** The body of the first reply cannot be decoded. *)
Definition undecodable : env :=
  sample_env [Ok (Response 200 (Raise (Exc JSONDecodeError_ EmptyString)))]
    (Raise conn_err).




(** Every post is refused. *)
Definition offline : env := sample_env [] (Raise conn_err).

End Samples.

(** * Properties *)

(** ** The retry policy *)
Module RetryFacts.
Import Client.

Lemma wait_eq (k : Z) : 0 <= k -> wait k = Z.min (100 * 2 ^ k) 1000.
Proof.
  intros Hk. unfold wait, Retrying.exponential_sleep, multiplier, max_wait.
  assert (0 < 2 ^ k) by (apply Z.pow_pos_nonneg; lia).
  cbv zeta.
  destruct (1000 <? 100 * 2 ^ k) eqn:Hmax;
    [apply Z.ltb_lt in Hmax | apply Z.ltb_ge in Hmax].
  - change (1000 <? 0) with false. cbv iota. lia.
  - destruct (100 * 2 ^ k <? 0) eqn:Hneg;
      [apply Z.ltb_lt in Hneg | apply Z.ltb_ge in Hneg]; lia.
Qed.

Lemma whitelist (e : exception) :
  retry_on_http_error e = true <->
  isinstance e Requests_HTTPError = true \/
  isinstance e Requests_ConnectionError = true \/
  isinstance e Urllib3_HTTPError = true.
Proof.
  unfold retry_on_http_error, valid_exceptions. cbn [existsb].
  rewrite orb_false_r, !orb_true_iff. tauto.
Qed.

Lemma gql_once_eq (self : client) (q v : pyval) (E : env) (w : world) :
  gql_once self q v E w =
  (attempt self E (posts w),
   {| posts := S (posts w);
      out := out w ++ [Post (gql_endpoint self)
                         (PyDict [("query", q); ("variables", v)])
                         (gql_headers self)];
      data_path := data_path w; ready := ready w |}).
Proof.
  unfold gql_once, attempt, bind, post, lift, rbind.
  destruct (session_post E (posts w) (gql_endpoint self)); reflexivity.
Qed.

Lemma rejected_raises {A} (r : result A) :
  rejected r = true -> exists e, r = Raise e /\ retry_on_http_error e = true.
Proof.
  destruct r as [a | e]; cbn; [discriminate | eauto].
Qed.

Lemma call_gql (self : client) (q v : pyval) (E : env) :
  forall (j fuel : nat) (a : Z) (w : world),
    (j < fuel)%nat ->
    a + Z.of_nat j <= 10 ->
    (forall i, (i < j)%nat -> rejected (attempt self E (posts w + i)) = true) ->
    a + Z.of_nat j = 10 \/ rejected (attempt self E (posts w + j)) = false ->
    Retrying.call retry_on_http_error multiplier max_wait max_attempts
      fuel (gql_once self q v) a E w =
    (returned (attempt self E (posts w + j)),
     {| posts := posts w + S j;
        out := out w ++ retry_trace
                 (Post (gql_endpoint self)
                    (PyDict [("query", q); ("variables", v)])
                    (gql_headers self)) a j;
        data_path := data_path w; ready := ready w |}).
Proof.
  unfold rejected.
  induction j as [| j IH]; intros fuel a w Hfuel Ha Hrej Hlast;
    (destruct fuel as [| fuel]; [lia |]); cbn [Retrying.call];
    rewrite gql_once_eq.
  - rewrite Nat.add_0_r in *. rewrite Nat.add_1_r. cbn [retry_trace].
    destruct (Retrying.should_reject _ (attempt self E (posts w))) eqn:R;
      cbn [negb].
    + destruct Hlast as [H10 | ?]; [| discriminate].
      replace a with 10 by lia.
      destruct (rejected_raises _ R) as [e [-> _]]. reflexivity.
    + destruct (attempt self E (posts w)); reflexivity.
  - assert (R : Retrying.should_reject retry_on_http_error
                  (attempt self E (posts w)) = true).
    { specialize (Hrej 0%nat). rewrite Nat.add_0_r in Hrej. apply Hrej. lia. }
    rewrite R. cbn [negb].
    unfold Retrying.stop_after_attempt, max_attempts.
    destruct (Z.leb_spec 10 a); [lia |].
    unfold bind at 1, emit at 1.
    rewrite (IH fuel (a + 1)); cbn [posts out data_path ready].
    + fold (wait a). rewrite <- !app_assoc. cbn [app retry_trace].
      replace (S (posts w) + j)%nat with (posts w + S j)%nat by lia.
      replace (S (posts w) + S j)%nat with (posts w + S (S j))%nat by lia.
      reflexivity.
    + lia.
    + lia.
    + intros i Hi. replace (S (posts w) + i)%nat with (posts w + S i)%nat by lia.
      apply Hrej. lia.
    + replace (S (posts w) + j)%nat with (posts w + S j)%nat by lia.
      destruct Hlast; [left; lia | right; assumption].
Qed.

(** The loop of [_gql] always ends within its ten rounds. *)
Lemma call_returns {A} (fn : M A) (E : env) :
  forall (fuel : nat) (a : Z) (w : world),
    (0 < fuel)%nat ->
    10 - a < Z.of_nat fuel ->
    fst (Retrying.call retry_on_http_error multiplier max_wait max_attempts
           fuel fn a E w) <> Ok None.
Proof.
  induction fuel as [| fuel IH]; intros a w Hpos Hfuel.
  - lia.
  - cbn [Retrying.call]. destruct (fn E w) as [r w1].
    destruct (negb _).
    + destruct r; cbn; discriminate.
    + unfold Retrying.stop_after_attempt, max_attempts.
      destruct (Z.leb_spec 10 a).
      * destruct r; cbn; discriminate.
      * unfold bind at 1, emit at 1. apply IH; lia.
Qed.

Lemma sleeps_retry_trace (u : string) (d h : pyval) :
  forall (j : nat) (a : Z),
    sleeps (retry_trace (Post u d h) a j) =
    map (fun i => wait (a + Z.of_nat i)) (seq 0 j).
Proof.
  induction j as [| j IH]; intros a; [reflexivity |].
  cbn [retry_trace sleeps flat_map app seq map]. fold (sleeps).
  rewrite IH, <- seq_shift, map_map. f_equal.
  - f_equal. lia.
  - apply map_ext. intros i. f_equal. lia.
Qed.

(** Every run of [_gql] has a last execution among its first ten: the
    first one that is not retried, or the tenth. *)
Lemma last_attempt_exists (self : client) (E : env) (n : nat) :
  forall bound : nat,
    exists j, (j <= bound)%nat /\
      (forall i, (i < j)%nat -> rejected (attempt self E (n + i)) = true) /\
      (j = bound \/ rejected (attempt self E (n + j)) = false).
Proof.
  induction bound as [| b [j (Hj & Hbefore & Hlast)]].
  - exists 0%nat. repeat split; [lia | intros i Hi; lia | left; reflexivity].
  - destruct Hlast as [-> | Hstop].
    + destruct (rejected (attempt self E (n + b))) eqn:R.
      * exists (S b). repeat split; [lia | | left; reflexivity].
        intros i Hi. destruct (Nat.eq_dec i b) as [-> | Hne];
          [exact R | apply Hbefore; lia].
      * exists b. repeat split; [lia | exact Hbefore | right; exact R].
    + exists j. repeat split; [lia | exact Hbefore | right; exact Hstop].
Qed.

(** C2, as the code has it.  Let the first [j] executions of [_gql] fail
    with errors that [retry_on_http_error] accepts, and let execution
    [j+1] either be the tenth or end otherwise (a result, or an error not
    on the list).  Then [_gql] makes exactly [j+1] posts, sleeps
    min(100 * 2^k, 1000) ms after the k-th of the failed ones, and ends as
    execution [j+1] did: the tenth error is raised as it is, an error not
    on the list is raised from the execution that met it (the first one
    if [j = 0]).  An outcome is retried only if it is an error that is an
    instance of one of the three listed classes, and the loop never runs
    out of rounds. *)
Theorem retry_policy (self : client) (q v : pyval) (E : env) (w : world)
    (j : nat) :
  (j < 10)%nat ->
  (forall i, (i < j)%nat -> rejected (attempt self E (posts w + i)) = true) ->
  j = 9%nat \/ rejected (attempt self E (posts w + j)) = false ->
  let (r, w') := _gql self q v E w in
  r = returned (attempt self E (posts w + j)) /\
  posts w' = (posts w + S j)%nat /\
  sleeps (out w') =
    (sleeps (out w) ++
     map (fun k => Z.min (100 * 2 ^ Z.of_nat k) 1000) (seq 1 j))%list /\
  r <> Ok None /\
  (forall (A : Type) (x : result A),
      rejected x = true <->
      exists e, x = Raise e /\
        (isinstance e Requests_HTTPError = true \/
         isinstance e Requests_ConnectionError = true \/
         isinstance e Urllib3_HTTPError = true)).
Proof.
  intros Hj Hrej Hlast.
  pose proof (call_returns (gql_once self q v) E 10 1 w) as Hret.
  assert (Hlast' : 1 + Z.of_nat j = 10 \/
                   rejected (attempt self E (posts w + j)) = false).
  { destruct Hlast as [-> | ?]; [left; reflexivity | right; assumption]. }
  pose proof (call_gql self q v E j 10 1 w ltac:(lia) ltac:(lia) Hrej Hlast')
    as Heq.
  unfold _gql. rewrite Heq in Hret |- *.
  cbn [fst] in Hret. repeat split.
  - unfold sleeps at 1. cbn [out]. rewrite flat_map_app. fold sleeps.
    rewrite sleeps_retry_trace. f_equal.
    rewrite <- seq_shift, map_map. apply map_ext_in.
    intros i _. rewrite wait_eq by lia.
    replace (1 + Z.of_nat i) with (Z.of_nat (S i)) by lia. reflexivity.
  - apply Hret; lia.
  - intros Hx. destruct (rejected_raises _ Hx) as [e [-> He]].
    exists e. split; [reflexivity | apply whitelist; exact He].
  - intros [e [-> He]]. apply whitelist. exact He.
Qed.

(** Three transient failures, then an answer: three retries after 200,
    400 and 800 ms. *)
Lemma retry_policy_witness :
  fst (_gql Samples.the_client (PyStr "query") PyNone Samples.flaky_env world0)
    = Ok (Some (PyInt 1, PyNone)) /\
  posts (snd (_gql Samples.the_client (PyStr "query") PyNone
                Samples.flaky_env world0)) = 4%nat /\
  sleeps (out (snd (_gql Samples.the_client (PyStr "query") PyNone
                      Samples.flaky_env world0))) = [200; 400; 800].
Proof.
  pose proof (retry_policy Samples.the_client (PyStr "query") PyNone
                Samples.flaky_env world0 3) as H.
  destruct (_gql Samples.the_client (PyStr "query") PyNone Samples.flaky_env
              world0) as [r w'].
  destruct H as (Hr & Hp & Hs & _).
  - lia.
  - intros i Hi.
    destruct i as [| [| [| i]]]; [reflexivity | reflexivity | reflexivity | lia].
  - right. reflexivity.
  - split; [exact Hr | split; [exact Hp | exact Hs]].
Defined.

(** C2 as stated fails: before the first retry the policy waits 200 ms,
    not min(100 * 2^0, 1000) = 100 ms. *)
Lemma retry_wait_counterexample :
  sleeps (out (snd (_gql Samples.the_client (PyStr "query") PyNone
                      Samples.flaky_env world0)))
  <> map spec_wait [1; 2; 3].
Proof.
  vm_compute. discriminate.
Qed.

End RetryFacts.

(** ** The export-job manager *)
Module ManagerFacts.
Import ProjectDataManager.

Lemma post_eq (self : manager) (url : string) (E : env) (w : world) :
  post url (_get_data_export_params self) (headers self) E w =
  (session_post E (posts w) url, posted self url w).
Proof. reflexivity. Qed.

Lemma logged_nil (w : world) : logged [] w = w.
Proof. destruct w. unfold logged. cbn. rewrite app_nil_r. reflexivity. Qed.

Lemma logged_app (evs evs' : list event) (w : world) :
  logged evs' (logged evs w) = logged (evs ++ evs') w.
Proof. unfold logged. cbn. rewrite app_assoc. reflexivity. Qed.

Lemma emit_eq (ev : event) (E : env) (w : world) :
  emit ev E w = (Ok tt, logged [ev] w).
Proof. reflexivity. Qed.

Lemma error_eq (self : manager) (E : env) (w : world) :
  _on_data_export_job_error self E w =
  (match session_post E (posts w) (error_endpoint self) with
   | Ok _ => Raise (export_error self)
   | Raise e => Raise e
   end,
   posted self (error_endpoint self) w).
Proof.
  unfold _on_data_export_job_error, bind. rewrite post_eq.
  destruct (session_post E (posts w) (error_endpoint self)); reflexivity.
Qed.

Lemma done_eq (self : manager) (E : env) (w : world) (r : response) :
  session_post E (posts w) (done_endpoint self) = Ok r ->
  _on_data_export_job_done self E w =
  match json r >>= fun body => getitem body "fileKey" with
  | Ok file_key =>
      (Ok tt,
       if truthy file_key
       then logged [ThreadStart (download_file_target file_key)]
              (posted self (done_endpoint self) w)
       else posted self (done_endpoint self) w)
  | Raise e =>
      (if isinstance e TypeError_ || isinstance e KeyError_
       then Raise (Exc NameError_ EmptyString) else Raise e,
       posted self (done_endpoint self) w)
  end.
Proof.
  intros Hr. unfold _on_data_export_job_done, bind at 1. rewrite post_eq, Hr.
  unfold try_except, bind, lift, rbind, undefined_name, raise.
  destruct (json r) as [body | e]; cbn [existsb].
  - destruct (getitem body "fileKey") as [k | e]; cbn [existsb].
    + destruct (truthy k); reflexivity.
    + rewrite orb_false_r. destruct (_ || _); reflexivity.
  - rewrite orb_false_r. destruct (_ || _); reflexivity.
Qed.

Lemma coerce_eq (v : pyval) (E : env) (w : world) :
  (if truthy v then int v else ret 0) E w = (coerce E v, w).
Proof. unfold coerce. destruct (truthy v); reflexivity. Qed.

Lemma show_and_schedule_eq (self : manager) (p t : Z) (E : env) (w : world) :
  show_and_schedule self p t E w =
  match line_events self E p t with
  | Ok evs => (Ok tt, logged (evs ++ timer_events p) w)
  | Raise e => (Raise e, w)
  end.
Proof.
  unfold show_and_schedule, line_events, timer_events, bind, ask, lift, ret.
  destruct ((0 <? p) && (p <=? 100) && (0 <? t)).
  - destruct (time_remaining_fmt E t) as [fmt | e]; cbn [rbind];
      [| reflexivity].
    destruct (p <? 100); cbn [app];
      rewrite ?emit_eq, ?logged_app, ?logged_nil; reflexivity.
  - destruct (p <? 100); cbn [app];
      rewrite ?emit_eq, ?logged_app, ?logged_nil; reflexivity.
Qed.

(** The events of the running branch, or the error that ends it. *)
Lemma on_running_eq (self : manager) (pv tv : pyval) (E : env) (w : world) :
  on_running self pv tv E w =
  match coerce E pv >>= fun p =>
        coerce E tv >>= fun t =>
        line_events self E p t >>= fun evs => Ok (evs ++ timer_events p)%list
  with
  | Ok evs => (Ok tt, logged evs w)
  | Raise e => (Raise e, w)
  end.
Proof.
  unfold on_running, bind. rewrite coerce_eq.
  destruct (coerce E pv) as [p | e]; [| reflexivity].
  rewrite coerce_eq. destruct (coerce E tv) as [t | e]; [| reflexivity].
  cbn [rbind]. rewrite show_and_schedule_eq.
  destruct (line_events self E p t); reflexivity.
Qed.

Lemma on_running_clamped_eq (self : manager) (pv tv : pyval) (E : env)
    (w : world) :
  on_running_clamped self pv tv E w =
  match coerce E pv >>= fun p =>
        coerce E tv >>= fun t =>
        line_events self E (clamp 0 100 p) (Z.max 0 t) >>= fun evs =>
        Ok (evs ++ timer_events (clamp 0 100 p))%list
  with
  | Ok evs => (Ok tt, logged evs w)
  | Raise e => (Raise e, w)
  end.
Proof.
  unfold on_running_clamped, bind. rewrite coerce_eq.
  destruct (coerce E pv) as [p | e]; [| reflexivity].
  rewrite coerce_eq. destruct (coerce E tv) as [t | e]; [| reflexivity].
  cbn [rbind]. rewrite show_and_schedule_eq.
  destruct (line_events self E (clamp 0 100 p) (Z.max 0 t)); reflexivity.
Qed.

(** A progress check whose reply carries the three fields goes on by the
    status, in the world after its post. *)
Lemma check_fields (self : manager) (E : env) (w : world) (st pv tv : pyval) :
  progress_fields (session_post E (posts w) (progress_endpoint self))
    = Some (st, pv, tv) ->
  _check_data_export_job_progress self E w =
  (if eq_str st "running" then on_running self pv tv
   else if eq_str st "done" then _on_data_export_job_done self
   else if eq_str st "error" then _on_data_export_job_error self
   else ret tt) E (posted self (progress_endpoint self) w).
Proof.
  unfold progress_fields, _check_data_export_job_progress, bind at 1.
  rewrite post_eq.
  destruct (session_post E (posts w) (progress_endpoint self)) as [r | e];
    [| discriminate].
  unfold bind at 1, try_except, bind, lift, ret.
  destruct (json r) as [body | e]; [| discriminate].
  destruct (getitem body "status") as [st' | e]; [| discriminate].
  destruct (getitem body "progress") as [pv' | e]; [| discriminate].
  destruct (getitem body "timeRemaining") as [tv' | e]; [| discriminate].
  intros [= -> -> ->]. reflexivity.
Qed.






(** C10, as the code has it.  The reply to the error acknowledgment is
    ignored, whatever its status code and body, and the manager then raises
    the export error, whose message names the export type and the project;
    an error raised by the acknowledgment post itself is not caught and is
    raised in place of the export error. *)
Theorem error_acknowledgment (self : manager) (E : env) (w : world) :
  _on_data_export_job_error self E w =
    (match session_post E (posts w) (error_endpoint self) with
     | Ok _ => Raise (export_error self)
     | Raise e => Raise e
     end,
     posted self (error_endpoint self) w) /\
  export_error self =
    Exc Exception_
      ("Error exporting " ++ type_name (type self) ++ " for project "
       ++ project_id self ++ ".").
Proof.
  split; [apply error_eq | reflexivity].
Qed.

(** C10 as stated fails: when the acknowledgment post is refused, the
    connection error is raised, not the export error. *)
Lemma error_acknowledgment_counterexample :
  fst (_on_data_export_job_error (Samples.manager_of annotations)
         Samples.offline world0)
  <> Raise (export_error (Samples.manager_of annotations)).
Proof.
  vm_compute. discriminate.
Qed.

(** C4 at the failing input: the done acknowledgment is answered by an
    object without fileKey.  The handler raises [NameError] while it
    evaluates the arguments of the call, so the error acknowledgment is not
    posted and the export error is not raised. *)
Theorem done_without_file_key :
  let self := Samples.manager_of images in
  let run := _on_data_export_job_done self Samples.answers_no_key world0 in
  run = (Raise (Exc NameError_ EmptyString),
         posted self (done_endpoint self) world0) /\
  count_posts (error_endpoint self) (out (snd run)) = 0%nat /\
  fst run <> Raise (export_error self).
Proof.
  cbv zeta. split; [reflexivity | split; [reflexivity |]].
  vm_compute. discriminate.
Qed.

(** With a truthy fileKey the download is started on a thread of its own
    and the method returns. *)
Lemma done_with_file_key (self : manager) (E : env) (w : world)
    (r : response) (body file_key : pyval) :
  session_post E (posts w) (done_endpoint self) = Ok r ->
  json r = Ok body ->
  getitem body "fileKey" = Ok file_key ->
  truthy file_key = true ->
  _on_data_export_job_done self E w =
  (Ok tt,
   logged [ThreadStart (download_file_target file_key)]
     (posted self (done_endpoint self) w)).
Proof.
  intros Hr Hb Hk Ht. rewrite (done_eq _ _ _ _ Hr), Hb. cbn [rbind].
  rewrite Hk, Ht. reflexivity.
Qed.

(** Whenever the reply is an object without fileKey, or not an object. *)
Lemma done_key_missing (self : manager) (E : env) (w : world)
    (r : response) (body : pyval) (e : exception) :
  session_post E (posts w) (done_endpoint self) = Ok r ->
  json r = Ok body ->
  getitem body "fileKey" = Raise e ->
  _on_data_export_job_done self E w =
  (Raise (Exc NameError_ EmptyString), posted self (done_endpoint self) w).
Proof.
  intros Hr Hb Hk. rewrite (done_eq _ _ _ _ Hr), Hb. cbn [rbind]. rewrite Hk.
  assert (isinstance e TypeError_ || isinstance e KeyError_ = true) as ->;
    [| reflexivity].
  unfold getitem in Hk.
  destruct body; try (injection Hk as <-; reflexivity).
  destruct (assoc "fileKey" items); [discriminate |].
  injection Hk as <-. reflexivity.
Qed.

(** The checks of the constructor that raise [ValueError]. *)
Lemma init_value_errors (ty : string) (domain project_id : option string)
    (path : string) (headers : pyval) (E : env) (w : world) :
  parse_type ty = None \/ falsy domain = true \/ falsy project_id = true ->
  exists msg,
    __init__ ty domain project_id path headers E w
      = (Raise (Exc ValueError_ msg), w).
Proof.
  unfold __init__, bind, ask, raise.
  destruct (parse_type ty); [| eexists; reflexivity].
  destruct (falsy domain); [eexists; reflexivity |].
  destruct (falsy project_id); [eexists; reflexivity |].
  intros [H | [H | H]]; discriminate.
Qed.

(** With the other arguments valid, a path that does not exist always
    ends in [AttributeError]. *)
Lemma init_path_missing (ty : string) (domain project_id : option string)
    (path : string) (headers : pyval) (E : env) (w : world) :
  parse_type ty <> None -> falsy domain = false ->
  falsy project_id = false -> path_exists E path = false ->
  __init__ ty domain project_id path headers E w
    = (Raise (Exc AttributeError_ EmptyString), w).
Proof.
  unfold __init__, bind, ask, raise, foramt.
  destruct (parse_type ty); [| congruence].
  intros _ -> -> ->. reflexivity.
Qed.

(** C8 at the failing input: valid type, domain and project_id, and a
    destination that does not exist.  The constructor raises
    [AttributeError], which is not an [OSError]; nothing has been posted. *)
Theorem init_missing_path :
  __init__ "images" (Some "public.md.ai") (Some "abc123") "/no/such/dir"
    PyNone Samples.offline world0
    = (Raise (Exc AttributeError_ EmptyString), world0) /\
  isinstance (Exc AttributeError_ EmptyString) OSError_ = false.
Proof.
  split; reflexivity.
Qed.

Lemma line_events_ok (self : manager) (E : env) (p t : Z) :
  (0 < p <= 100 -> 45 < t -> exists s, humanize E t = Ok s) ->
  exists evs, line_events self E p t = Ok evs /\ timers evs = [].
Proof.
  intros H. unfold line_events, time_remaining_fmt.
  destruct (Z.ltb_spec 0 p); cbn [andb]; [| eexists; split; reflexivity].
  destruct (Z.leb_spec p 100); cbn [andb]; [| eexists; split; reflexivity].
  destruct (Z.ltb_spec 0 t); [| eexists; split; reflexivity].
  destruct (Z.ltb_spec 45 t); [| eexists; split; reflexivity].
  destruct H as [s ->]; [lia | lia |]. eexists; split; reflexivity.
Qed.

Lemma line_events_raise (self : manager) (E : env) (p t : Z) (e : exception) :
  0 < p <= 100 -> 45 < t -> humanize E t = Raise e ->
  line_events self E p t = Raise e.
Proof.
  intros Hp Ht He. unfold line_events, time_remaining_fmt.
  destruct (Z.ltb_spec 0 p); [| lia].
  destruct (Z.leb_spec p 100); [| lia].
  destruct (Z.ltb_spec 0 t); [| lia].
  destruct (Z.ltb_spec 45 t); [| lia].
  cbn [andb]. rewrite He. reflexivity.
Qed.

Lemma line_events_timers (self : manager) (E : env) (p t : Z)
    (evs : list event) :
  line_events self E p t = Ok evs -> timers evs = [].
Proof.
  unfold line_events. destruct (_ && _); [| now intros [= <-]].
  destruct (time_remaining_fmt E t); [| discriminate]. now intros [= <-].
Qed.

Lemma line_events_not_due (self : manager) (E : env) (p t : Z) :
  ~ (0 < p <= 100 /\ 0 < t) -> line_events self E p t = Ok [].
Proof.
  intros H. unfold line_events.
  destruct (Z.ltb_spec 0 p); cbn [andb]; [| reflexivity].
  destruct (Z.leb_spec p 100); cbn [andb]; [| reflexivity].
  destruct (Z.ltb_spec 0 t); [| reflexivity]. exfalso. apply H. lia.
Qed.

Lemma check_running (self : manager) (E : env) (w : world)
    (st pv tv : pyval) :
  progress_fields (session_post E (posts w) (progress_endpoint self))
    = Some (st, pv, tv) ->
  eq_str st "running" = true ->
  _check_data_export_job_progress self E w =
  on_running self pv tv E (posted self (progress_endpoint self) w).
Proof.
  intros Hf Hst. rewrite (check_fields _ _ _ _ _ _ Hf), Hst. reflexivity.
Qed.

(** The running branch of a check whose two values are integers. *)
Lemma check_running_eq (self : manager) (E : env) (w : world)
    (st pv tv : pyval) (p t : Z) :
  progress_fields (session_post E (posts w) (progress_endpoint self))
    = Some (st, pv, tv) ->
  eq_str st "running" = true ->
  coerce E pv = Ok p ->
  coerce E tv = Ok t ->
  _check_data_export_job_progress self E w =
  match line_events self E p t with
  | Ok evs =>
      (Ok tt,
       logged (evs ++ timer_events p) (posted self (progress_endpoint self) w))
  | Raise e => (Raise e, posted self (progress_endpoint self) w)
  end.
Proof.
  intros Hf Hst Hp Ht.
  rewrite (check_running _ _ _ _ _ _ Hf Hst), on_running_eq, Hp, Ht.
  cbn [rbind]. destruct (line_events self E p t); reflexivity.
Qed.

Lemma timers_logged (self : manager) (evs : list event) (p : Z) (w : world) :
  timers evs = [] ->
  timers (out (logged (evs ++ timer_events p)
                 (posted self (progress_endpoint self) w)))
  = (timers (out w) ++ timer_events p)%list.
Proof.
  intros H. unfold timers, logged, posted in *. cbn [out].
  rewrite !filter_app, H. cbn [filter app]. rewrite app_nil_r.
  f_equal. unfold timer_events. destruct (p <? 100); reflexivity.
Qed.

Lemma timers_posted (self : manager) (url : string) (w : world) :
  timers (out (posted self url w)) = timers (out w).
Proof.
  unfold timers, posted. cbn [out]. rewrite filter_app. cbn. apply app_nil_r.
Qed.

(** C3, as the code has it.  For a progress reply with status running
    whose progress and timeRemaining coerce to the integers [p] and [t]:
    the check makes its own post and no other, so no done acknowledgment
    is issued, whatever [p] is.  If the progress line can be formatted
    (that is, unless a line is due with [t > 45] and arrow raises on [t]),
    the check returns, with exactly one timer started, for 1 second and
    for the progress check, if [p < 100].  If [p >= 100], in particular at
    100, no timer is started.  If a line is due with [t > 45] and arrow
    raises, the check raises that error and starts no timer.  The done
    acknowledgment is what a check does when the status is done. *)
Theorem running_schedules_poll (self : manager) (E : env) (w : world)
    (st pv tv : pyval) (p t : Z) :
  progress_fields (session_post E (posts w) (progress_endpoint self))
    = Some (st, pv, tv) ->
  eq_str st "running" = true ->
  coerce E pv = Ok p ->
  coerce E tv = Ok t ->
  let (r, w') := _check_data_export_job_progress self E w in
  posts w' = S (posts w) /\
  ((0 < p <= 100 -> 45 < t -> exists s, humanize E t = Ok s) ->
   r = Ok tt /\
   (p < 100 ->
    timers (out w') =
    (timers (out w) ++ [TimerStart 1%Q check_progress_target])%list)) /\
  (100 <= p -> timers (out w') = timers (out w)) /\
  (forall e, 0 < p <= 100 -> 45 < t -> humanize E t = Raise e ->
     r = Raise e /\ timers (out w') = timers (out w)) /\
  (forall E2 w2 st2 pv2 tv2,
      progress_fields (session_post E2 (posts w2) (progress_endpoint self))
        = Some (st2, pv2, tv2) ->
      eq_str st2 "done" = true ->
      _check_data_export_job_progress self E2 w2 =
      _on_data_export_job_done self E2
        (posted self (progress_endpoint self) w2)).
Proof.
  intros Hf Hst Hp Ht.
  rewrite (check_running_eq _ _ _ _ _ _ _ _ Hf Hst Hp Ht).
  assert (Hdone : forall E2 w2 st2 pv2 tv2,
      progress_fields (session_post E2 (posts w2) (progress_endpoint self))
        = Some (st2, pv2, tv2) ->
      eq_str st2 "done" = true ->
      _check_data_export_job_progress self E2 w2 =
      _on_data_export_job_done self E2
        (posted self (progress_endpoint self) w2)).
  { intros E2 w2 st2 pv2 tv2 Hf2 Hst2.
    rewrite (check_fields _ _ _ _ _ _ Hf2), Hst2.
    destruct st2; try discriminate. cbn in Hst2 |- *.
    apply String.eqb_eq in Hst2. subst. reflexivity. }
  destruct (line_events self E p t) as [evs | e] eqn:Hl.
  - pose proof (line_events_timers self E p t evs Hl) as Hev.
    split; [reflexivity |]. split; [| split; [| split; [| exact Hdone]]].
    + intros _. split; [reflexivity |]. intros Hlt.
      rewrite (timers_logged self evs p w Hev). unfold timer_events.
      destruct (Z.ltb_spec p 100); [reflexivity | lia].
    + intros Hge. rewrite (timers_logged self evs p w Hev).
      unfold timer_events.
      destruct (Z.ltb_spec p 100); [lia | apply app_nil_r].
    + intros e Hrange H45 He.
      rewrite (line_events_raise self E p t e Hrange H45 He) in Hl.
      discriminate.
  - split; [reflexivity |]. split; [| split; [| split; [| exact Hdone]]].
    + intros Hfmt.
      destruct (line_events_ok self E p t Hfmt) as (evs & Hok & _).
      rewrite Hok in Hl. discriminate.
    + intros _. apply timers_posted.
    + intros e' Hrange H45 He.
      rewrite (line_events_raise self E p t e' Hrange H45 He) in Hl.
      injection Hl as <-. split; [reflexivity | apply timers_posted].
Qed.

(** Progress 50: one timer; the check made one post. *)
Lemma running_schedules_poll_witness :
  fst (_check_data_export_job_progress (Samples.manager_of images)
         (Samples.answers_running 50 30) world0) = Ok tt /\
  timers (out (snd (_check_data_export_job_progress
                      (Samples.manager_of images)
                      (Samples.answers_running 50 30) world0)))
  = [TimerStart 1%Q check_progress_target].
Proof.
  pose proof (running_schedules_poll (Samples.manager_of images)
                (Samples.answers_running 50 30) world0
                (PyStr "running") (PyInt 50) (PyInt 30) 50 30
                eq_refl eq_refl eq_refl eq_refl) as H.
  destruct (_check_data_export_job_progress (Samples.manager_of images)
              (Samples.answers_running 50 30) world0) as [r w'].
  destruct H as (_ & Hok & _).
  destruct Hok as [Hr Hlt]; [intros _ H45; lia |].
  split; [exact Hr | apply Hlt; lia].
Defined.

(** C3 as stated fails: at status running with progress 100 the check ends
    after its own post, and the done acknowledgment is not issued. *)
Lemma running_at_100_counterexample :
  ~ (1 <= count_posts (done_endpoint (Samples.manager_of images))
            (out (snd (_check_data_export_job_progress
                         (Samples.manager_of images)
                         (Samples.answers_running 100 0) world0))))%nat /\
  posts (snd (_check_data_export_job_progress (Samples.manager_of images)
                (Samples.answers_running 100 0) world0)) = 1%nat /\
  timers (out (snd (_check_data_export_job_progress
                      (Samples.manager_of images)
                      (Samples.answers_running 100 0) world0))) = [].
Proof.
  split; [| split; reflexivity].
  vm_compute. intros H. inversion H.
Qed.

Lemma clamp_same_events (self : manager) (E : env) (p t : Z) :
  p <= 100 ->
  (line_events self E (clamp 0 100 p) (Z.max 0 t) >>= fun evs =>
   Ok (evs ++ timer_events (clamp 0 100 p))%list)
  = (line_events self E p t >>= fun evs => Ok (evs ++ timer_events p)%list).
Proof.
  intros Hp. unfold line_events, timer_events, clamp.
  destruct (Z.lt_ge_cases 0 p) as [Hpos | Hneg].
  - replace (Z.max 0 (Z.min 100 p)) with p by lia.
    destruct (Z.lt_ge_cases 0 t) as [Htpos | Htneg].
    + replace (Z.max 0 t) with t by lia. reflexivity.
    + replace (Z.max 0 t) with 0 by lia.
      assert ((0 <? t) = false) as -> by (apply Z.ltb_ge; lia).
      change (0 <? 0) with false. rewrite !andb_false_r. reflexivity.
  - replace (Z.max 0 (Z.min 100 p)) with 0 by lia.
    assert ((0 <? p) = false) as -> by (apply Z.ltb_ge; lia).
    assert ((p <? 100) = true) as -> by (apply Z.ltb_lt; lia).
    reflexivity.
Qed.

Lemma prints_posted (self : manager) (url : string) (w : world) :
  prints (out (posted self url w)) = prints (out w).
Proof.
  unfold prints, posted. cbn [out]. rewrite filter_app. cbn. apply app_nil_r.
Qed.

(** C6, as the code has it.  For a progress reply with status running
    whose progress coerces to the integer [p] (a falsy value counts as 0):
    the values are used as they are, not clamped.  A progress line is
    printed only when [p] is in (0,100] and the coerced timeRemaining is
    positive, and a timer is started only when [p < 100].  If [p <= 100]
    the check does exactly what it would do with progress clamped to
    [0,100] and timeRemaining clamped to at least 0; if [p > 100] it prints
    no progress line and starts no timer. *)
Theorem running_values_unclamped (self : manager) (E : env) (w : world)
    (st pv tv : pyval) (p : Z) :
  progress_fields (session_post E (posts w) (progress_endpoint self))
    = Some (st, pv, tv) ->
  eq_str st "running" = true ->
  coerce E pv = Ok p ->
  (p <= 100 ->
   _check_data_export_job_progress self E w =
   on_running_clamped self pv tv E (posted self (progress_endpoint self) w)) /\
  (100 < p ->
   _check_data_export_job_progress self E w =
   (coerce E tv >>= fun _ => Ok tt, posted self (progress_endpoint self) w)) /\
  (forall t, coerce E tv = Ok t -> ~ (0 < p <= 100 /\ 0 < t) ->
     prints (out (snd (_check_data_export_job_progress self E w)))
     = prints (out w)) /\
  (100 <= p ->
   timers (out (snd (_check_data_export_job_progress self E w)))
   = timers (out w)).
Proof.
  intros Hf Hst Hp.
  rewrite (check_running _ _ _ _ _ _ Hf Hst), on_running_eq,
    on_running_clamped_eq, Hp. cbn [rbind].
  split; [| split; [| split]].
  - intros Hle. destruct (coerce E tv) as [t | e]; [| reflexivity].
    cbn [rbind]. rewrite clamp_same_events by assumption. reflexivity.
  - intros Hgt. destruct (coerce E tv) as [t | e]; [| reflexivity].
    cbn [rbind]. rewrite line_events_not_due by lia. cbn [rbind app].
    unfold timer_events. destruct (Z.ltb_spec p 100); [lia |].
    rewrite logged_nil. reflexivity.
  - intros t Ht Hnot. rewrite Ht. cbn [rbind].
    rewrite (line_events_not_due self E p t Hnot). cbn [rbind app snd].
    unfold timer_events, prints, logged, posted. cbn [out].
    destruct (p <? 100); rewrite !filter_app; cbn [filter app];
      rewrite ?app_nil_r; reflexivity.
  - intros Hge. destruct (coerce E tv) as [t | e];
      [| apply timers_posted].
    cbn [rbind]. destruct (line_events self E p t) as [evs | e] eqn:Hl;
      [| apply timers_posted].
    cbn [rbind snd].
    pose proof (line_events_timers self E p t evs Hl) as Hev.
    rewrite (timers_logged self evs p w Hev). unfold timer_events.
    destruct (Z.ltb_spec p 100); [lia | apply app_nil_r].
Qed.

(** Progress 100 with 30 seconds left: as with clamping. *)
Lemma running_values_unclamped_witness :
  _check_data_export_job_progress (Samples.manager_of images)
    (Samples.answers_running 100 30) world0 =
  on_running_clamped (Samples.manager_of images) (PyInt 100) (PyInt 30)
    (Samples.answers_running 100 30)
    (posted (Samples.manager_of images)
       (progress_endpoint (Samples.manager_of images)) world0).
Proof.
  apply (running_values_unclamped (Samples.manager_of images)
           (Samples.answers_running 100 30) world0
           (PyStr "running") (PyInt 100) (PyInt 30) 100
           eq_refl eq_refl eq_refl).
  lia.
Defined.

(** C6 as stated fails: progress 150 with 10 seconds left is not clamped to
    100; the line for 100% that clamping would print is not printed. *)
Lemma running_clamp_counterexample :
  _check_data_export_job_progress (Samples.manager_of images)
    (Samples.answers_running 150 10) world0 <>
  on_running_clamped (Samples.manager_of images) (PyInt 150) (PyInt 10)
    (Samples.answers_running 150 10)
    (posted (Samples.manager_of images)
       (progress_endpoint (Samples.manager_of images)) world0).
Proof.
  vm_compute. discriminate.
Qed.




End ManagerFacts.

(** ** The downloader *)
Module DownloadFacts.
Import ProjectDataManager ManagerFacts.

Lemma write_blocks_eq (filepath : string) (E : env) :
  forall (blocks : list (list Byte.byte)) (wrote : Z) (w : world),
    write_blocks filepath blocks wrote E w =
    (Ok (wrote + written blocks), logged (map (FileWrite filepath) blocks) w).
Proof.
  induction blocks as [| data rest IH]; intros wrote w.
  - cbn. rewrite logged_nil, Z.add_0_r. reflexivity.
  - cbn [write_blocks written fold_right map]. unfold bind at 1.
    rewrite emit_eq, IH, logged_app. fold (written rest).
    cbn [app]. f_equal. f_equal. lia.
Qed.

(** A download whose stream completes comes to the size check with the
    declared total and the bytes written. *)
Lemma download_eq (self : manager) (file_key : string) (E : env) (w : world)
    (total_size : Z) (blocks : list (list Byte.byte)) :
  stream_completes self E file_key = Some (total_size, blocks) ->
  _download_file self file_key E w =
  (verify_size file_key total_size (written blocks) ;; finish self file_key)
    E (logged (stream_events self E file_key blocks) w).
Proof.
  unfold stream_completes, _download_file, stream_events.
  unfold print, get, open_, int, bind, ask, lift, emit.
  cbn [posts out data_path ready].
  destruct (requests_get E (signed_url self E file_key)) as [r | e];
    [| discriminate].
  destruct (py_int E _) as [total | e]; [| discriminate].
  destruct (open_wb E (OsPath.join (path self) file_key)); [discriminate |].
  destruct (stream_error r) eqn:Hs; [discriminate |].
  intros [= -> <-].
  unfold ret. rewrite write_blocks_eq. cbn [Z.add].
  unfold logged. cbn [posts out data_path ready].
  rewrite <- !app_assoc. cbn [app].
  destruct (verify_size _ _ _ E _) as [[[] | e] w1]; [| reflexivity].
  unfold finish, bind, print, emit. destruct (type self); reflexivity.
Qed.

Lemma finish_annotations (self : manager) (file_key : string) (E : env)
    (w : world) :
  type self = annotations ->
  finish self file_key E w =
  (Ok tt,
   {| posts := posts w; out := out w ++ [ReadySet];
      data_path := Some (OsPath.join (path self) file_key);
      ready := true |}).
Proof. intros H. unfold finish. rewrite H. reflexivity. Qed.

Lemma finish_images (self : manager) (file_key : string) (E : env)
    (w : world) :
  type self = images ->
  extractall E (OsPath.join (path self) file_key) (path self) = None ->
  finish self file_key E w =
  (Ok tt,
   {| posts := posts w;
      out := out w ++
             [Print ("Extracting archive: " ++ file_key) LF;
              ExtractAll (OsPath.join (path self) file_key) (path self);
              ReadySet];
      data_path :=
        Some (fst (OsPath.splitext (OsPath.join (path self) file_key)));
      ready := true |}).
Proof.
  intros H Hx. unfold finish, print, extract, bind, ask. rewrite H.
  rewrite !emit_eq, Hx. unfold ret, set_data_path, set_ready, logged.
  cbn [posts out data_path ready]. rewrite <- !app_assoc. reflexivity.
Qed.


Lemma substring_all (s : string) : substring 0 (String.length s) s = s.
Proof. induction s as [| c s IH]; cbn; [| rewrite IH]; reflexivity. Qed.

Lemma substring_split (s : string) :
  forall n, substring 0 n s ++ substring n (String.length s - n) s = s.
Proof.
  induction s as [| c s IH]; intros [| n]; cbn [substring String.length].
  - reflexivity.
  - reflexivity.
  - cbn [Nat.sub append]. rewrite substring_all. reflexivity.
  - cbn [Nat.sub append]. rewrite IH. reflexivity.
Qed.

(** [splitext] cuts the path in two: root and extension. *)
Lemma splitext_joins (p : string) :
  fst (OsPath.splitext p) ++ snd (OsPath.splitext p) = p.
Proof.
  unfold OsPath.splitext. destruct (_ && _); cbn [fst snd].
  - apply substring_split.
  - clear. induction p as [| c p IH]; cbn; [| rewrite IH]; reflexivity.
Qed.

Lemma verify_size_eq (file_key : string) (total_size wrote : Z) (E : env)
    (w : world) :
  verify_size file_key total_size wrote E w =
  (if negb (total_size =? 0) && negb (wrote =? total_size)
   then Raise (download_error file_key) else Ok tt, w).
Proof. unfold verify_size. destruct (_ && _); reflexivity. Qed.

(** The download from the size check on. *)
Lemma download_checked (self : manager) (file_key : string) (E : env)
    (w : world) (total_size : Z) (blocks : list (list Byte.byte)) :
  stream_completes self E file_key = Some (total_size, blocks) ->
  _download_file self file_key E w =
  if negb (total_size =? 0) && negb (written blocks =? total_size)
  then (Raise (download_error file_key),
        logged (stream_events self E file_key blocks) w)
  else finish self file_key E (logged (stream_events self E file_key blocks) w).
Proof.
  intros Hs. rewrite (download_eq _ _ _ _ _ _ Hs).
  unfold bind. rewrite verify_size_eq. destruct (_ && _); reflexivity.
Qed.







End DownloadFacts.

(** ** The client: construction and queries *)
Module ClientFacts.
Import Client RetryFacts.

Lemma length_app (s t : string) :
  String.length (s ++ t) = (String.length s + String.length t)%nat.
Proof. induction s as [| c s IH]; cbn; [| rewrite IH]; reflexivity. Qed.

Lemma substring_suffix (p suffix : string) :
  substring (String.length p) (String.length suffix) (p ++ suffix) = suffix.
Proof.
  induction p as [| c p IH]; cbn.
  - apply DownloadFacts.substring_all.
  - exact IH.
Qed.

Lemma endswith_iff (s suffix : string) :
  ClientSession.endswith s suffix = true <-> exists p, s = p ++ suffix.
Proof.
  unfold ClientSession.endswith. rewrite andb_true_iff, Nat.leb_le, String.eqb_eq.
  split.
  - intros [Hle Hsub].
    exists (substring 0 (String.length s - String.length suffix) s).
    rewrite <- Hsub at 2.
    rewrite <- (DownloadFacts.substring_split s
                  (String.length s - String.length suffix)) at 1.
    do 2 f_equal. lia.
  - intros [p ->]. rewrite length_app. split; [lia |].
    replace (String.length p + String.length suffix - String.length suffix)%nat
      with (String.length p) by lia.
    apply substring_suffix.
Qed.

(** A domain that does not end in ".md.ai" is refused with [ValueError]
    before any request is made. *)
Theorem client_init_invalid_domain (session_get : string -> result response)
    (domain : string) (access_token : pyval) (E : env) (w : world) :
  (forall p, domain <> p ++ ".md.ai") ->
  ClientSession.__init__ session_get domain access_token E w =
  (Raise (Exc ValueError_
            ("domain " ++ domain ++ " is invalid: should be format *.md.ai")),
   w).
Proof.
  intros H. unfold ClientSession.__init__.
  destruct (ClientSession.endswith domain ".md.ai") eqn:He; [| reflexivity].
  apply endswith_iff in He. destruct He as [p ->]. now destruct (H p).
Qed.

Lemma client_init_invalid_domain_witness :
  fst (ClientSession.__init__ (Samples.get_answers 200) "example.com" PyNone
         Samples.offline world0)
  = Raise (Exc ValueError_
             "domain example.com is invalid: should be format *.md.ai") /\
  out (snd (ClientSession.__init__ (Samples.get_answers 200) "example.com"
              PyNone Samples.offline world0)) = [].
Proof.
  rewrite (client_init_invalid_domain (Samples.get_answers 200) "example.com"
             PyNone Samples.offline world0).
  - split; reflexivity.
  - intros p Hp.
    assert (He : ClientSession.endswith "example.com" ".md.ai" = true)
      by (apply endswith_iff; exists p; exact Hp).
    discriminate He.
Defined.

(** For a domain ending in ".md.ai" the constructor sends exactly one GET,
    to the test endpoint and with the token header; it returns the client
    when the reply has status 200 and raises the authorization error for
    every other status (other 2xx included). *)
Theorem client_init_authenticates (session_get : string -> result response)
    (p : string) (access_token : pyval) (E : env) (w : world) (r : response) :
  let self := {| domain := p ++ ".md.ai"; access_token := access_token |} in
  session_get (ClientSession.test_endpoint self) = Ok r ->
  let (res, w') :=
    ClientSession.__init__ session_get (p ++ ".md.ai") access_token E w in
  filter (fun ev => match ev with Get _ _ => true | _ => false end) (out w')
  = (filter (fun ev => match ev with Get _ _ => true | _ => false end) (out w)
     ++ [Get (ClientSession.test_endpoint self)
           (PyDict (_create_headers self))])%list /\
  posts w' = posts w /\
  (status_code r = 200 -> res = Ok self) /\
  (status_code r <> 200 -> res = Raise ClientSession.authorization_error).
Proof.
  intros self Hr. unfold ClientSession.__init__.
  assert (He : ClientSession.endswith (p ++ ".md.ai") ".md.ai" = true)
    by (apply endswith_iff; exists p; reflexivity).
  rewrite He. cbn [negb]. fold self.
  unfold ClientSession._test_endpoint, bind, lift, emit, ProjectDataManager.print.
  rewrite Hr. cbn [posts out]. unfold emit, raise, ret.
  destruct (Z.eqb_spec (status_code r) 200) as [H200 | H200]; cbn [out posts];
    rewrite !filter_app; cbn [filter app]; rewrite ?app_nil_r;
    repeat split; try reflexivity; intros; congruence.
Qed.

Lemma client_init_authenticates_witness :
  fst (ClientSession.__init__ (Samples.get_answers 200) "public.md.ai"
         (PyStr "token") Samples.offline world0)
    = Ok Samples.the_client /\
  fst (ClientSession.__init__ (Samples.get_answers 204) "public.md.ai"
         (PyStr "token") Samples.offline world0)
    = Raise ClientSession.authorization_error.
Proof.
  split.
  - pose proof (client_init_authenticates (Samples.get_answers 200) "public"
                  (PyStr "token") Samples.offline world0
                  (Response 200 (Ok PyNone)) eq_refl) as H.
    cbn [append] in H.
    destruct (ClientSession.__init__ (Samples.get_answers 200) "public.md.ai"
                (PyStr "token") Samples.offline world0) as [res w'].
    destruct H as (_ & _ & Hok & _). apply Hok. reflexivity.
  - pose proof (client_init_authenticates (Samples.get_answers 204) "public"
                  (PyStr "token") Samples.offline world0
                  (Response 204 (Ok PyNone)) eq_refl) as H.
    cbn [append] in H.
    destruct (ClientSession.__init__ (Samples.get_answers 204) "public.md.ai"
                (PyStr "token") Samples.offline world0) as [res w'].
    destruct H as (_ & _ & _ & Hno). apply Hno. discriminate.
Defined.

Lemma gql_first_attempt (self : client) (q v : pyval) (E : env) (w : world) :
  rejected (attempt self E (posts w)) = false ->
  _gql self q v E w =
  (returned (attempt self E (posts w)),
   {| posts := S (posts w);
      out := out w ++ [Post (gql_endpoint self)
                         (PyDict [("query", q); ("variables", v)])
                         (gql_headers self)];
      data_path := data_path w; ready := ready w |}).
Proof.
  intros H. unfold _gql.
  rewrite (call_gql self q v E 0 10 1 w); try lia.
  - rewrite Nat.add_0_r, Nat.add_1_r. reflexivity.
  - right. rewrite Nat.add_0_r. exact H.
Qed.

Lemma status_passes (r : response) :
  status_code r < 400 \/ 600 <= status_code r ->
  (if negb (status_code r =? 200) then raise_for_status r else Ok tt) = Ok tt.
Proof.
  intros H. destruct (negb _); [| reflexivity]. unfold raise_for_status.
  destruct (Z.leb_spec 400 (status_code r));
    destruct (Z.ltb_spec (status_code r) 600); try reflexivity; lia.
Qed.

(** A reply whose status is no error status and whose body is a JSON
    object ends [_gql] at once: one post, no wait, and the result is the
    pair of the object's "data" and "errors" entries, [None] standing for
    an entry that is absent. *)
Theorem gql_object_reply (self : client) (q v : pyval) (E : env) (w : world)
    (r : response) (d : list (string * pyval)) :
  session_post E (posts w) (gql_endpoint self) = Ok r ->
  status_code r < 400 \/ 600 <= status_code r ->
  json r = Ok (PyDict d) ->
  _gql self q v E w =
  (Ok (Some (dict_get d "data", dict_get d "errors")),
   {| posts := S (posts w);
      out := out w ++ [Post (gql_endpoint self)
                         (PyDict [("query", q); ("variables", v)])
                         (gql_headers self)];
      data_path := data_path w; ready := ready w |}).
Proof.
  intros Hr Hs Hj.
  assert (Ha : attempt self E (posts w)
               = Ok (dict_get d "data", dict_get d "errors")).
  { unfold attempt. rewrite Hr. cbn [rbind]. unfold gql_reply.
    rewrite (status_passes r Hs), Hj. cbn [rbind contains getitem].
    unfold dict_get.
    destruct (assoc "data" d); destruct (assoc "errors" d); reflexivity. }
  rewrite gql_first_attempt; rewrite Ha; reflexivity.
Qed.

Lemma gql_object_reply_witness :
  fst (_gql Samples.the_client (PyStr "query") PyNone
         (Samples.answers 200 (PyDict [("errors", PyList [PyStr "bad query"])]))
         world0)
  = Ok (Some (PyNone, PyList [PyStr "bad query"])).
Proof.
  rewrite (gql_object_reply Samples.the_client (PyStr "query") PyNone
             (Samples.answers 200 (PyDict [("errors", PyList [PyStr "bad query"])]))
             world0
             (Response 200 (Ok (PyDict [("errors", PyList [PyStr "bad query"])])))
             [("errors", PyList [PyStr "bad query"])]
             eq_refl (or_introl eq_refl) eq_refl).
  reflexivity.
Defined.

(** A reply whose body is JSON but no container ([null], a bool, a
    number) makes [_gql] raise [TypeError] from its first execution: a
    malformed body is never retried. *)
Theorem gql_scalar_body (self : client) (q v : pyval) (E : env) (w : world)
    (r : response) (body : pyval) :
  session_post E (posts w) (gql_endpoint self) = Ok r ->
  status_code r < 400 \/ 600 <= status_code r ->
  json r = Ok body ->
  scalar body = true ->
  _gql self q v E w =
  (Raise (Exc TypeError_ EmptyString),
   {| posts := S (posts w);
      out := out w ++ [Post (gql_endpoint self)
                         (PyDict [("query", q); ("variables", v)])
                         (gql_headers self)];
      data_path := data_path w; ready := ready w |}).
Proof.
  intros Hr Hs Hj Hb.
  assert (Ha : attempt self E (posts w) = Raise (Exc TypeError_ EmptyString)).
  { unfold attempt. rewrite Hr. cbn [rbind]. unfold gql_reply.
    rewrite (status_passes r Hs), Hj. cbn [rbind].
    destruct body; try discriminate Hb; reflexivity. }
  rewrite gql_first_attempt; rewrite Ha; reflexivity.
Qed.

Lemma gql_scalar_body_witness :
  fst (_gql Samples.the_client (PyStr "query") PyNone
         (Samples.answers 200 PyNone) world0)
  = Raise (Exc TypeError_ EmptyString) /\
  posts (snd (_gql Samples.the_client (PyStr "query") PyNone
                (Samples.answers 200 PyNone) world0)) = 1%nat.
Proof.
  rewrite (gql_scalar_body Samples.the_client (PyStr "query") PyNone
             (Samples.answers 200 PyNone) world0
             (Response 200 (Ok PyNone)) PyNone
             eq_refl (or_introl eq_refl) eq_refl eq_refl).
  split; reflexivity.
Defined.

Lemma total_app (l l' : list Z) : total (l ++ l') = total l + total l'.
Proof.
  induction l as [| x l IH]; cbn [app total fold_right]; [reflexivity |].
  fold (total (l ++ l')). fold (total l). lia.
Qed.

Lemma wait_sum_bound (j : nat) :
  (j <= 9)%nat ->
  total (map (fun i => wait (1 + Z.of_nat i)) (seq 0 j)) <= 7400.
Proof.
  intros Hj.
  do 10 (destruct j as [| j]; [vm_compute; discriminate |]).
  lia.
Qed.

(** Whatever the session answers, [_gql] makes at least one and at most
    ten posts, waits at most 7400 ms in total, and comes back with a
    result or an error. *)
Theorem gql_bounded (self : client) (q v : pyval) (E : env) (w : world) :
  let (r, w') := _gql self q v E w in
  (posts w < posts w' <= posts w + 10)%nat /\
  total (sleeps (out w')) <= total (sleeps (out w)) + 7400 /\
  r <> Ok None.
Proof.
  destruct (last_attempt_exists self E (posts w) 9) as [j (Hj & Hb & Hl)].
  pose proof (call_returns (gql_once self q v) E 10 1 w) as Hret.
  assert (Hl' : 1 + Z.of_nat j = 10 \/
                rejected (attempt self E (posts w + j)) = false).
  { destruct Hl as [-> | Hl]; [left; reflexivity | right; exact Hl]. }
  pose proof (call_gql self q v E j 10 1 w ltac:(lia) ltac:(lia) Hb Hl') as Heq.
  unfold _gql. rewrite Heq in Hret |- *.
  cbn [posts out fst] in *. split; [lia |]. split; [| apply Hret; lia].
  unfold sleeps. rewrite flat_map_app. fold sleeps.
  rewrite sleeps_retry_trace, total_app.
  pose proof (wait_sum_bound j Hj). lia.
Qed.

(** If each of the first ten replies carries a 4xx or 5xx status, [_gql]
    posts ten times, waits 200, 400, 800 and six times 1000 ms, and raises
    the HTTP error: client errors such as 401 or 404 are retried like
    server errors. *)
Theorem gql_error_status_exhausts (self : client) (q v : pyval) (E : env)
    (w : world) :
  (forall i, (i < 10)%nat ->
     exists r, session_post E (posts w + i) (gql_endpoint self) = Ok r /\
               400 <= status_code r < 600) ->
  let (r, w') := _gql self q v E w in
  r = Raise (Exc Requests_HTTPError EmptyString) /\
  posts w' = (posts w + 10)%nat /\
  sleeps (out w') =
  (sleeps (out w) ++ [200; 400; 800; 1000; 1000; 1000; 1000; 1000; 1000])%list.
Proof.
  intros H.
  assert (Ha : forall i, (i < 10)%nat ->
             attempt self E (posts w + i)
             = Raise (Exc Requests_HTTPError EmptyString)).
  { intros i Hi. destruct (H i Hi) as [r [Hr Hs]].
    unfold attempt. rewrite Hr. cbn [rbind]. unfold gql_reply.
    destruct (Z.eqb_spec (status_code r) 200); [lia |]. cbn [negb].
    unfold raise_for_status.
    destruct (Z.leb_spec 400 (status_code r)); [| lia].
    destruct (Z.ltb_spec (status_code r) 600); [| lia]. reflexivity. }
  unfold _gql. rewrite (call_gql self q v E 9 10 1 w); try lia.
  - rewrite (Ha 9%nat) by lia. cbn [returned posts out].
    repeat split. unfold sleeps. rewrite flat_map_app. fold sleeps.
    rewrite sleeps_retry_trace. reflexivity.
  - intros i Hi. rewrite Ha by lia. reflexivity.
Qed.

Lemma gql_error_status_exhausts_witness :
  fst (_gql Samples.the_client (PyStr "query") PyNone Samples.unavailable
         world0)
  = Raise (Exc Requests_HTTPError EmptyString) /\
  posts (snd (_gql Samples.the_client (PyStr "query") PyNone
                Samples.unavailable world0)) = 10%nat.
Proof.
  pose proof (gql_error_status_exhausts Samples.the_client (PyStr "query")
                PyNone Samples.unavailable world0) as H.
  destruct (_gql Samples.the_client (PyStr "query") PyNone Samples.unavailable
              world0) as [r w'].
  destruct H as (Hr & Hp & _).
  - intros i Hi. exists (Response 503 (Ok PyNone)).
    do 10 (destruct i as [| i]; [split; [reflexivity | cbn; lia] |]). lia.
  - split; [exact Hr | exact Hp].
Defined.

End ClientFacts.

(** ** The life cycle of an export job *)
Module LifecycleFacts.
Import ProjectDataManager ManagerFacts.

Lemma getitem_error_caught (body : pyval) (k : string) (e : exception) :
  getitem body k = Raise e ->
  existsb (isinstance e) [TypeError_; KeyError_] = true.
Proof.
  unfold getitem. intros H.
  destruct body; try (injection H as <-; reflexivity).
  destruct (assoc k items); [discriminate |]. injection H as <-. reflexivity.
Qed.

Lemma eq_str_other (st : pyval) (a b : string) :
  eq_str st a = true -> a <> b -> eq_str st b = false.
Proof.
  destruct st; try discriminate. cbn. intros H Hab.
  apply String.eqb_eq in H. subst. apply String.eqb_neq. exact Hab.
Qed.

Lemma eq_str_done_not_running (st : pyval) :
  eq_str st "done" = true -> eq_str st "running" = false.
Proof.
  destruct st; try discriminate. cbn. intros H.
  apply String.eqb_eq in H. subst. reflexivity.
Qed.

(** The whole path of a job that is accepted and already done at the first
    check: creation answered 202, the progress check answered with status
    done, the done acknowledgment answered with a truthy fileKey.  One call
    of [create_data_export_job] makes the three posts in this order, starts
    the download thread for the key and returns; it starts no timer and
    downloads nothing itself. *)
Theorem export_accepted_and_done (self : manager) (E : env) (w : world)
    (r0 r2 : response) (st pv tv body file_key : pyval) :
  session_post E (posts w) (create_endpoint self) = Ok r0 ->
  status_code r0 = 202 ->
  progress_fields (session_post E (S (posts w)) (progress_endpoint self))
    = Some (st, pv, tv) ->
  eq_str st "done" = true ->
  session_post E (S (S (posts w))) (done_endpoint self) = Ok r2 ->
  json r2 = Ok body ->
  getitem body "fileKey" = Ok file_key ->
  truthy file_key = true ->
  create_data_export_job self E w =
  (Ok tt,
   logged [ThreadStart (download_file_target file_key)]
     (posted self (done_endpoint self)
        (posted self (progress_endpoint self)
           (posted self (create_endpoint self) w)))).
Proof.
  intros H0 H202 Hf Hst H2 Hb Hk Ht.
  unfold create_data_export_job, bind. rewrite post_eq, H0, H202.
  cbn [Z.eqb Pos.eqb].
  rewrite (check_fields self E (posted self (create_endpoint self) w)
             st pv tv Hf).
  rewrite (eq_str_done_not_running st Hst), Hst.
  apply (done_with_file_key self E
           (posted self (progress_endpoint self)
              (posted self (create_endpoint self) w)) r2 body file_key
           H2 Hb Hk Ht).
Qed.

Lemma export_accepted_and_done_witness :
  create_data_export_job (Samples.manager_of images)
    (Samples.completes (PyStr "imgs.zip")) world0 =
  (Ok tt,
   {| posts := 3;
      out :=
        [Post (create_endpoint (Samples.manager_of images))
           (_get_data_export_params (Samples.manager_of images))
           (headers (Samples.manager_of images));
         Post (progress_endpoint (Samples.manager_of images))
           (_get_data_export_params (Samples.manager_of images))
           (headers (Samples.manager_of images));
         Post (done_endpoint (Samples.manager_of images))
           (_get_data_export_params (Samples.manager_of images))
           (headers (Samples.manager_of images));
         ThreadStart (download_file_target (PyStr "imgs.zip"))];
      data_path := None; ready := false |}).
Proof.
  rewrite (export_accepted_and_done (Samples.manager_of images)
             (Samples.completes (PyStr "imgs.zip")) world0
             (Response 202 (Ok PyNone))
             (Response 200 (Ok (PyDict [("fileKey", PyStr "imgs.zip")])))
             (PyStr "done") (PyInt 100) (PyInt 0)
             (PyDict [("fileKey", PyStr "imgs.zip")]) (PyStr "imgs.zip")
             eq_refl eq_refl eq_refl eq_refl eq_refl eq_refl eq_refl eq_refl).
  reflexivity.
Defined.

(** Job creation accepts status 202 only: every other status, 200
    included, is a failure.  The manager then posts the error
    acknowledgment and, once that is answered, raises the export error;
    no progress check is made. *)
Theorem creation_rejected (self : manager) (E : env) (w : world)
    (r0 r1 : response) :
  session_post E (posts w) (create_endpoint self) = Ok r0 ->
  status_code r0 <> 202 ->
  session_post E (S (posts w)) (error_endpoint self) = Ok r1 ->
  create_data_export_job self E w =
  (Raise (export_error self),
   posted self (error_endpoint self) (posted self (create_endpoint self) w)).
Proof.
  intros H0 Hs H1.
  unfold create_data_export_job, bind. rewrite post_eq, H0.
  destruct (Z.eqb_spec (status_code r0) 202); [contradiction |].
  rewrite error_eq. cbn [posts posted]. rewrite H1. reflexivity.
Qed.

Lemma creation_rejected_witness :
  fst (create_data_export_job (Samples.manager_of annotations)
         (Samples.creation_answered 200) world0)
  = Raise (export_error (Samples.manager_of annotations)) /\
  posts (snd (create_data_export_job (Samples.manager_of annotations)
                (Samples.creation_answered 200) world0)) = 2%nat.
Proof.
  rewrite (creation_rejected (Samples.manager_of annotations)
             (Samples.creation_answered 200) world0
             (Response 200 (Ok PyNone)) (Response 200 (Ok PyNone))
             eq_refl ltac:(cbn; discriminate) eq_refl).
  split; reflexivity.
Defined.

Lemma check_missing_eq (self : manager) (E : env) (w : world)
    (r : response) (body : pyval) :
  session_post E (posts w) (progress_endpoint self) = Ok r ->
  json r = Ok body ->
  progress_fields (Ok r) = None ->
  _check_data_export_job_progress self E w =
  _on_data_export_job_error self E (posted self (progress_endpoint self) w).
Proof.
  intros Hr Hb Hf. unfold progress_fields in Hf. rewrite Hb in Hf.
  unfold _check_data_export_job_progress, bind at 1. rewrite post_eq, Hr.
  unfold bind at 1, try_except, bind at 1, lift at 1. rewrite Hb.
  unfold bind, lift, ret.
  destruct (getitem body "status") as [st | e] eqn:H1.
  - destruct (getitem body "progress") as [pv | e] eqn:H2.
    + destruct (getitem body "timeRemaining") as [tv | e] eqn:H3;
        [discriminate |].
      rewrite (getitem_error_caught _ _ _ H3).
      destruct (_on_data_export_job_error self E _) as [[[] | e'] w'];
        reflexivity.
    + rewrite (getitem_error_caught _ _ _ H2).
      destruct (_on_data_export_job_error self E _) as [[[] | e'] w'];
        reflexivity.
  - rewrite (getitem_error_caught _ _ _ H1).
    destruct (_on_data_export_job_error self E _) as [[[] | e'] w'];
      reflexivity.
Qed.

(** A progress reply whose body is JSON but lacks one of status, progress
    and timeRemaining, or is no object at all, is a failure: the check goes
    on as the error acknowledgment does, so it starts no timer. *)
Theorem check_fields_missing (self : manager) (E : env) (w : world)
    (r : response) (body : pyval) :
  session_post E (posts w) (progress_endpoint self) = Ok r ->
  json r = Ok body ->
  progress_fields (Ok r) = None ->
  _check_data_export_job_progress self E w =
  _on_data_export_job_error self E (posted self (progress_endpoint self) w).
Proof. exact (check_missing_eq self E w r body). Qed.

Lemma check_fields_missing_witness :
  fst (_check_data_export_job_progress (Samples.manager_of images)
         (Samples.sample_env
            [Samples.replied 200 (PyDict [("progress", PyInt 10)]);
             Samples.replied 200 PyNone] (Raise Samples.conn_err)) world0)
  = Raise (export_error (Samples.manager_of images)).
Proof.
  rewrite (check_fields_missing (Samples.manager_of images)
             (Samples.sample_env
                [Samples.replied 200 (PyDict [("progress", PyInt 10)]);
                 Samples.replied 200 PyNone] (Raise Samples.conn_err)) world0
             (Response 200 (Ok (PyDict [("progress", PyInt 10)])))
             (PyDict [("progress", PyInt 10)]) eq_refl eq_refl eq_refl).
  reflexivity.
Defined.

(** A progress reply whose body cannot be decoded is not handled as a
    failure of the job: the decoding error is neither [TypeError] nor
    [KeyError], so it is raised as it is, after the one post of the check
    and without an error acknowledgment. *)
Theorem check_undecodable (self : manager) (E : env) (w : world)
    (r : response) (e : exception) :
  session_post E (posts w) (progress_endpoint self) = Ok r ->
  json r = Raise e ->
  isinstance e TypeError_ = false ->
  isinstance e KeyError_ = false ->
  _check_data_export_job_progress self E w =
  (Raise e, posted self (progress_endpoint self) w).
Proof.
  intros Hr Hj Ht Hk.
  unfold _check_data_export_job_progress, bind at 1. rewrite post_eq, Hr.
  unfold bind at 1, try_except, bind at 1, lift at 1. rewrite Hj.
  cbn [existsb]. rewrite Ht, Hk. reflexivity.
Qed.

Lemma check_undecodable_witness :
  _check_data_export_job_progress (Samples.manager_of images)
    Samples.undecodable world0 =
  (Raise (Exc JSONDecodeError_ EmptyString),
   posted (Samples.manager_of images)
     (progress_endpoint (Samples.manager_of images)) world0).
Proof.
  apply (check_undecodable (Samples.manager_of images) Samples.undecodable
           world0 (Response 200 (Raise (Exc JSONDecodeError_ EmptyString)))
           (Exc JSONDecodeError_ EmptyString) eq_refl eq_refl eq_refl eq_refl).
Defined.

(** A progress reply with a status other than running, done and error
    ends the check without any further action: no timer, no
    acknowledgment, no error. *)
Theorem check_unknown_status (self : manager) (E : env) (w : world)
    (st pv tv : pyval) :
  progress_fields (session_post E (posts w) (progress_endpoint self))
    = Some (st, pv, tv) ->
  eq_str st "running" = false ->
  eq_str st "done" = false ->
  eq_str st "error" = false ->
  _check_data_export_job_progress self E w =
  (Ok tt, posted self (progress_endpoint self) w).
Proof.
  intros Hf H1 H2 H3.
  rewrite (check_fields _ _ _ _ _ _ Hf), H1, H2, H3. reflexivity.
Qed.

Lemma check_unknown_status_witness :
  _check_data_export_job_progress (Samples.manager_of images)
    (Samples.answers 200
       (PyDict [("status", PyStr "queued"); ("progress", PyInt 0);
                ("timeRemaining", PyNone)])) world0 =
  (Ok tt,
   posted (Samples.manager_of images)
     (progress_endpoint (Samples.manager_of images)) world0).
Proof.
  apply (check_unknown_status (Samples.manager_of images)
           (Samples.answers 200
              (PyDict [("status", PyStr "queued"); ("progress", PyInt 0);
                       ("timeRemaining", PyNone)])) world0
           (PyStr "queued") (PyInt 0) PyNone
           eq_refl eq_refl eq_refl eq_refl).
Defined.

(** A running reply whose progress or timeRemaining cannot be turned into
    an integer makes the check raise the conversion error after its post:
    no line is printed, no timer started and no error acknowledged. *)
Theorem check_conversion_error (self : manager) (E : env) (w : world)
    (st pv tv : pyval) (e : exception) :
  progress_fields (session_post E (posts w) (progress_endpoint self))
    = Some (st, pv, tv) ->
  eq_str st "running" = true ->
  coerce E pv = Raise e \/
  (exists p, coerce E pv = Ok p) /\ coerce E tv = Raise e ->
  _check_data_export_job_progress self E w =
  (Raise e, posted self (progress_endpoint self) w).
Proof.
  intros Hf Hst H.
  rewrite (check_running _ _ _ _ _ _ Hf Hst), on_running_eq.
  destruct H as [-> | [[p ->] ->]]; reflexivity.
Qed.

Lemma check_conversion_error_witness :
  _check_data_export_job_progress (Samples.manager_of images)
    (Samples.answers 200 (Samples.running (PyStr "half") (PyInt 10))) world0 =
  (Raise (Exc ValueError_ EmptyString),
   posted (Samples.manager_of images)
     (progress_endpoint (Samples.manager_of images)) world0).
Proof.
  apply (check_conversion_error (Samples.manager_of images)
           (Samples.answers 200 (Samples.running (PyStr "half") (PyInt 10)))
           world0 (PyStr "running") (PyStr "half") (PyInt 10)
           (Exc ValueError_ EmptyString) eq_refl eq_refl (or_introl eq_refl)).
Defined.

(** A done acknowledgment whose fileKey is present but falsy ([null], an
    empty string, 0) ends silently: nothing is downloaded and nothing is
    raised. *)
Theorem done_falsy_key (self : manager) (E : env) (w : world)
    (r : response) (body file_key : pyval) :
  session_post E (posts w) (done_endpoint self) = Ok r ->
  json r = Ok body ->
  getitem body "fileKey" = Ok file_key ->
  truthy file_key = false ->
  _on_data_export_job_done self E w =
  (Ok tt, posted self (done_endpoint self) w).
Proof.
  intros Hr Hb Hk Ht. rewrite (done_eq _ _ _ _ Hr), Hb. cbn [rbind].
  rewrite Hk, Ht. reflexivity.
Qed.

Lemma done_falsy_key_witness :
  _on_data_export_job_done (Samples.manager_of images)
    (Samples.answers 200 (PyDict [("fileKey", PyNone)])) world0 =
  (Ok tt,
   posted (Samples.manager_of images)
     (done_endpoint (Samples.manager_of images)) world0).
Proof.
  apply (done_falsy_key (Samples.manager_of images)
           (Samples.answers 200 (PyDict [("fileKey", PyNone)])) world0
           (Response 200 (Ok (PyDict [("fileKey", PyNone)])))
           (PyDict [("fileKey", PyNone)]) PyNone
           eq_refl eq_refl eq_refl eq_refl).
Defined.

(** A progress reply with status error is answered by the error
    acknowledgment and, once that is answered, by the export error. *)
Theorem check_reports_error (self : manager) (E : env) (w : world)
    (st pv tv : pyval) (r1 : response) :
  progress_fields (session_post E (posts w) (progress_endpoint self))
    = Some (st, pv, tv) ->
  eq_str st "error" = true ->
  session_post E (S (posts w)) (error_endpoint self) = Ok r1 ->
  _check_data_export_job_progress self E w =
  (Raise (export_error self),
   posted self (error_endpoint self) (posted self (progress_endpoint self) w)).
Proof.
  intros Hf Hst H1.
  rewrite (check_fields _ _ _ _ _ _ Hf).
  rewrite (eq_str_other st "error" "running" Hst) by discriminate.
  rewrite (eq_str_other st "error" "done" Hst) by discriminate.
  rewrite Hst, error_eq. cbn [posts posted]. rewrite H1. reflexivity.
Qed.

Lemma check_reports_error_witness :
  fst (_check_data_export_job_progress (Samples.manager_of annotations)
         (Samples.sample_env
            [Samples.replied 200
               (PyDict [("status", PyStr "error"); ("progress", PyNone);
                        ("timeRemaining", PyNone)]);
             Samples.replied 500 PyNone] (Raise Samples.conn_err)) world0)
  = Raise (export_error (Samples.manager_of annotations)).
Proof.
  rewrite (check_reports_error (Samples.manager_of annotations)
             (Samples.sample_env
                [Samples.replied 200
                   (PyDict [("status", PyStr "error"); ("progress", PyNone);
                            ("timeRemaining", PyNone)]);
                 Samples.replied 500 PyNone] (Raise Samples.conn_err)) world0
             (PyStr "error") PyNone PyNone (Response 500 (Ok PyNone))
             eq_refl eq_refl eq_refl).
  reflexivity.
Defined.

Lemma grows_refl (self : manager) (w : world) : grows self 0 w w.
Proof.
  unfold grows. repeat split; try lia.
  exists []. split; [symmetry; apply app_nil_r | constructor].
Qed.

Lemma grows_trans (self : manager) (n m : nat) (w w1 w2 : world) :
  grows self n w w1 -> grows self m w1 w2 -> grows self (n + m) w w2.
Proof.
  intros (Hp & Hd & Hr & evs & Ho & Hf) (Hp' & Hd' & Hr' & evs' & Ho' & Hf').
  unfold grows. repeat split; try lia; try congruence.
  exists (evs ++ evs')%list. split.
  - rewrite Ho', Ho, app_assoc. reflexivity.
  - apply Forall_app. split; assumption.
Qed.

Lemma grows_more (self : manager) (n m : nat) (w w' : world) :
  (n <= m)%nat -> grows self n w w' -> grows self m w w'.
Proof.
  intros Hnm (Hp & Hd & Hr & Hex). unfold grows. repeat split; try lia; auto.
Qed.

Lemma grows_posted (self : manager) (c : job_control) (w : world) :
  grows self 1 w (posted self (endpoint c self) w).
Proof.
  unfold grows, posted. cbn [posts out data_path ready].
  repeat split; try lia.
  eexists. split; [reflexivity |].
  constructor; [| constructor]. cbn. repeat split. exists c. reflexivity.
Qed.

Lemma grows_logged (self : manager) (evs : list event) (w : world) :
  Forall (job_event self) evs -> grows self 0 w (logged evs w).
Proof.
  intros H. unfold grows, logged. cbn [posts out data_path ready].
  repeat split; try lia. exists evs. split; [reflexivity | exact H].
Qed.

Lemma after_error (self : manager) (E : env) (w : world) :
  grows self 1 w (snd (_on_data_export_job_error self E w)).
Proof. rewrite error_eq. apply (grows_posted self AckError). Qed.

Lemma after_done (self : manager) (E : env) (w : world) :
  grows self 0 (posted self (done_endpoint self) w)
    (snd (_on_data_export_job_done self E w)).
Proof.
  destruct (session_post E (posts w) (done_endpoint self)) as [r | e] eqn:Hr.
  - rewrite (done_eq _ _ _ _ Hr).
    destruct (json r >>= fun body => getitem body "fileKey") as [k | e];
      cbn [snd]; [| apply grows_refl].
    destruct (truthy k); [| apply grows_refl].
    apply grows_logged. constructor; [| constructor]. cbn. eauto.
  - unfold _on_data_export_job_done, bind. rewrite post_eq, Hr.
    apply grows_refl.
Qed.

Lemma after_running (self : manager) (pv tv : pyval) (E : env) (w : world) :
  grows self 0 w (snd (on_running self pv tv E w)).
Proof.
  rewrite on_running_eq.
  destruct (coerce E pv) as [p | e]; [| apply grows_refl].
  destruct (coerce E tv) as [t | e]; [| apply grows_refl].
  cbn [rbind].
  destruct (line_events self E p t) as [evs | e] eqn:Hl; [| apply grows_refl].
  cbn [rbind snd]. apply grows_logged. apply Forall_app. split.
  - unfold line_events in Hl. destruct (_ && _).
    + destruct (time_remaining_fmt E t); [| discriminate].
      injection Hl as <-. repeat constructor.
    + injection Hl as <-. constructor.
  - unfold timer_events. destruct (p <? 100); repeat constructor.
Qed.

Lemma after_check (self : manager) (E : env) (w : world) :
  grows self 1 (posted self (progress_endpoint self) w)
    (snd (_check_data_export_job_progress self E w)).
Proof.
  set (w1 := posted self (progress_endpoint self) w).
  assert (Herr : grows self 1 w1 (snd (_on_data_export_job_error self E w1)))
    by apply after_error.
  destruct (session_post E (posts w) (progress_endpoint self)) as [r | e]
    eqn:Hr.
  - destruct (json r) as [body | e] eqn:Hb.
    + destruct (progress_fields (Ok r)) as [[[st pv] tv] |] eqn:Hf.
      * rewrite <- Hr in Hf. rewrite (check_fields _ _ _ _ _ _ Hf). fold w1.
        destruct (eq_str st "running");
          [apply (grows_more self 0 1); [lia | apply after_running] |].
        destruct (eq_str st "done").
        { apply (grows_trans self 1 0 w1 (posted self (done_endpoint self) w1));
            [apply (grows_posted self AckDone) | apply after_done]. }
        destruct (eq_str st "error"); [exact Herr |].
        apply (grows_more self 0 1); [lia | apply grows_refl].
      * rewrite (check_missing_eq self E w r body Hr Hb Hf). exact Herr.
    + unfold _check_data_export_job_progress, bind at 1.
      rewrite post_eq, Hr. fold w1.
      unfold bind at 1, try_except, bind at 1, lift at 1. rewrite Hb.
      destruct (existsb (isinstance e) [TypeError_; KeyError_]).
      * unfold bind.
        destruct (_on_data_export_job_error self E w1) as [[[] | e'] w'];
          exact Herr.
      * apply (grows_more self 0 1); [lia | apply grows_refl].
  - unfold _check_data_export_job_progress, bind. rewrite post_eq, Hr.
    apply (grows_more self 0 1); [lia | apply grows_refl].
Qed.

Lemma after_create (self : manager) (E : env) (w : world) :
  grows self 2 (posted self (create_endpoint self) w)
    (snd (create_data_export_job self E w)).
Proof.
  unfold create_data_export_job, bind. rewrite post_eq.
  set (w1 := posted self (create_endpoint self) w).
  destruct (session_post E (posts w) (create_endpoint self)) as [r | e];
    [| apply (grows_more self 0 2); [lia | apply grows_refl]].
  destruct (status_code r =? 202).
  - apply (grows_trans self 1 1 w1 (posted self (progress_endpoint self) w1));
      [apply (grows_posted self Check) | apply after_check].
  - apply (grows_more self 1 2); [lia | apply after_error].
Qed.

Lemma sleeps_app (evs evs' : list event) :
  sleeps (evs ++ evs') = (sleeps evs ++ sleeps evs')%list.
Proof. unfold sleeps. apply flat_map_app. Qed.

Lemma job_events_never_sleep (self : manager) (evs : list event) :
  Forall (job_event self) evs -> sleeps evs = [].
Proof.
  induction 1 as [| ev evs Hev _ IH]; [reflexivity |].
  unfold sleeps in *. cbn [flat_map]. rewrite IH.
  destruct ev; cbn in Hev |- *; try reflexivity; contradiction.
Qed.

(** What a job-control call can do at all.  Whatever the session answers,
    a call makes at least one post and at most three (creation), two
    (progress check) or one (the acknowledgments); every post goes to one
    of the manager's four endpoints with its parameters and headers; apart
    from posts it only prints progress lines, starts the one-second
    polling timer or starts the download thread; it never waits and never
    touches the data path or the ready event. *)
Theorem job_control_footprint (c : job_control) (self : manager) (E : env)
    (w : world) :
  let w' := snd (run c self E w) in
  (posts w < posts w' <= posts w + max_posts c)%nat /\
  data_path w' = data_path w /\
  ready w' = ready w /\
  sleeps (out w') = sleeps (out w) /\
  exists evs, out w' = (out w ++ evs)%list /\ Forall (job_event self) evs.
Proof.
  cbv zeta.
  assert (H : exists n, max_posts c = S n /\
                grows self n (posted self (endpoint c self) w)
                  (snd (run c self E w))).
  { destruct c; cbn [run max_posts endpoint]; eexists; (split; [reflexivity |]).
    - apply after_create.
    - apply after_check.
    - apply after_done.
    - rewrite error_eq. apply grows_refl. }
  destruct H as (n & Hn & Hg).
  pose proof (grows_trans self 1 n _ _ _ (grows_posted self c w) Hg) as Hall.
  destruct Hg as (Hp & _). cbn [posts posted] in Hp.
  destruct Hall as (_ & Hd & Hr & evs & Ho & Hf).
  rewrite Hn. repeat split; try lia; try assumption.
  - rewrite Ho, sleeps_app, (job_events_never_sleep self evs Hf).
    apply app_nil_r.
  - exists evs. split; assumption.
Qed.

(** A done acknowledgment with a truthy fileKey starts the download on a
    thread of its own, for exactly this key, and returns: the method makes
    its one post and no download request itself. *)
Theorem download_started (self : manager) (E : env) (w : world)
    (r : response) (body file_key : pyval) :
  session_post E (posts w) (done_endpoint self) = Ok r ->
  json r = Ok body ->
  getitem body "fileKey" = Ok file_key ->
  truthy file_key = true ->
  _on_data_export_job_done self E w =
  (Ok tt,
   logged [ThreadStart (download_file_target file_key)]
     (posted self (done_endpoint self) w)).
Proof. exact (done_with_file_key self E w r body file_key). Qed.

Lemma download_started_witness :
  _on_data_export_job_done (Samples.manager_of annotations)
    (Samples.answers 200 (PyDict [("fileKey", PyStr "annos.json")])) world0 =
  (Ok tt,
   logged [ThreadStart (download_file_target (PyStr "annos.json"))]
     (posted (Samples.manager_of annotations)
        (done_endpoint (Samples.manager_of annotations)) world0)).
Proof.
  apply (download_started (Samples.manager_of annotations)
           (Samples.answers 200 (PyDict [("fileKey", PyStr "annos.json")]))
           world0
           (Response 200 (Ok (PyDict [("fileKey", PyStr "annos.json")])))
           (PyDict [("fileKey", PyStr "annos.json")]) (PyStr "annos.json")
           eq_refl eq_refl eq_refl eq_refl).
Defined.

(** The constructor refuses, with [ValueError] and without any effect, a
    type other than 'images' and 'annotations', a domain that is missing
    or empty, and a project_id that is missing or empty, whatever the
    other arguments are and whether the path exists or not. *)
Theorem init_refuses (ty : string) (domain project_id : option string)
    (path : string) (headers : pyval) (E : env) (w : world) :
  parse_type ty = None \/ falsy domain = true \/ falsy project_id = true ->
  exists msg,
    __init__ ty domain project_id path headers E w
      = (Raise (Exc ValueError_ msg), w).
Proof. exact (init_value_errors ty domain project_id path headers E w). Qed.

Lemma init_refuses_witness :
  exists msg,
    __init__ "labels" None None "/no/such/dir" PyNone Samples.offline world0
    = (Raise (Exc ValueError_ msg), world0).
Proof.
  apply (init_refuses "labels" None None "/no/such/dir" PyNone Samples.offline
           world0).
  left. reflexivity.
Defined.

(** With a valid type, a domain, a project_id and an existing path the
    constructor returns the manager holding exactly these values, without
    any request or other effect. *)
Theorem init_accepts (ty : string) (t : export_type) (domain project_id : string)
    (path : string) (headers : pyval) (E : env) (w : world) :
  parse_type ty = Some t ->
  domain <> EmptyString ->
  project_id <> EmptyString ->
  path_exists E path = true ->
  __init__ ty (Some domain) (Some project_id) path headers E w =
  (Ok {| type := t; ProjectDataManager.domain := domain;
         ProjectDataManager.project_id := project_id;
         ProjectDataManager.path := path;
         ProjectDataManager.headers := headers |}, w) /\
  type_name t = ty.
Proof.
  intros Ht Hd Hp Hx. split.
  - unfold __init__, bind, ask. rewrite Ht. cbn [falsy].
    apply String.eqb_neq in Hd, Hp. rewrite Hd, Hp, Hx. reflexivity.
  - unfold parse_type in Ht.
    destruct (String.eqb_spec ty "images") as [-> | _];
      [injection Ht as <-; reflexivity |].
    destruct (String.eqb_spec ty "annotations") as [-> | _];
      [injection Ht as <-; reflexivity | discriminate].
Qed.

Lemma init_accepts_witness :
  fst (__init__ "images" (Some "public.md.ai") (Some "abc123") "/dest"
         (PyDict [("x-access-token", PyStr "token")]) Samples.offline world0)
  = Ok (Samples.manager_of images).
Proof.
  destruct (init_accepts "images" images "public.md.ai" "abc123" "/dest"
              (PyDict [("x-access-token", PyStr "token")]) Samples.offline
              world0 eq_refl ltac:(discriminate) ltac:(discriminate) eq_refl)
    as [H _].
  rewrite H. reflexivity.
Defined.

Lemma quot_below (a : Z) (b : positive) (n : Z) :
  0 < n -> (Z.quot a (Z.pos b) < n <-> a < n * Z.pos b).
Proof.
  intros Hn. destruct (Z.lt_ge_cases a 0) as [Hneg | Hpos].
  - assert (Z.quot a (Z.pos b) <= 0).
    { replace a with (- (- a)) by lia. rewrite Z.quot_opp_l by lia.
      pose proof (Z.quot_pos (- a) (Z.pos b) ltac:(lia) ltac:(lia)). lia. }
    split; intros _; nia.
  - rewrite Z.quot_div_nonneg by lia. split; intros H.
    + apply Z.nle_gt. intros Hle.
      pose proof (Z.div_le_lower_bound a (Z.pos b) n ltac:(lia) ltac:(lia)).
      lia.
    + apply Z.div_lt_upper_bound; lia.
Qed.

(** When the reported progress is a fractional number, the poll decision
    is the one its value gives: truncation towards zero does not move it
    across 100.  At 100 or above the check starts no timer; below 100 it
    starts the timer (99.9 polls again, 100.5 does not), provided the
    progress line, if one is due, can be formatted: the time remaining is
    at most 45 or arrow humanizes it. *)
Theorem fractional_progress_poll (self : manager) (E : env) (w : world)
    (st tv : pyval) (q : Q) (t : Z) :
  progress_fields (session_post E (posts w) (progress_endpoint self))
    = Some (st, PyFloat (Finite q), tv) ->
  eq_str st "running" = true ->
  coerce E tv = Ok t ->
  let w' := snd (_check_data_export_job_progress self E w) in
  ((q < 100)%Q ->
   (t <= 45 \/ exists s, humanize E t = Ok s) ->
   timers (out w') =
   (timers (out w) ++ [TimerStart 1%Q check_progress_target])%list) /\
  ((100 <= q)%Q -> timers (out w') = timers (out w)).
Proof.
  intros Hf Hst Ht. cbv zeta.
  assert (Hp : coerce E (PyFloat (Finite q))
               = Ok (Z.quot (Qnum q) (Z.pos (Qden q)))).
  { unfold coerce, truthy. destruct (Z.eqb_spec (Qnum q) 0) as [H0 | H0];
      cbn [negb py_int int_of_float]; [rewrite H0 | reflexivity].
    rewrite Z.quot_0_l by lia. reflexivity. }
  rewrite (check_running_eq _ _ _ _ _ _ _ _ Hf Hst Hp Ht).
  pose proof (quot_below (Qnum q) (Qden q) 100 ltac:(lia)) as Hq.
  unfold Qlt, Qle. cbn [Qnum Qden].
  set (p := Z.quot (Qnum q) (Z.pos (Qden q))) in *.
  split.
  - intros Hlt Hfmt.
    destruct (line_events_ok self E p t) as (evs & -> & Hev).
    { intros _ H45. destruct Hfmt as [Hle | Hs]; [lia | exact Hs]. }
    cbn [snd]. rewrite (timers_logged self evs p w Hev). unfold timer_events.
    destruct (Z.ltb_spec p 100); [reflexivity | exfalso; lia].
  - intros Hge. destruct (line_events self E p t) as [evs | e] eqn:Hl;
      cbn [snd]; [| apply timers_posted].
    rewrite (timers_logged self evs p w (line_events_timers _ _ _ _ _ Hl)).
    unfold timer_events.
    destruct (Z.ltb_spec p 100); [exfalso; lia | apply app_nil_r].
Qed.

Lemma fractional_progress_poll_witness :
  timers (out (snd (_check_data_export_job_progress (Samples.manager_of images)
                      (Samples.answers 200
                         (Samples.running (PyFloat (Finite (999 # 10)))
                            (PyInt 5))) world0)))
  = [TimerStart 1%Q check_progress_target].
Proof.
  apply (fractional_progress_poll (Samples.manager_of images)
           (Samples.answers 200
              (Samples.running (PyFloat (Finite (999 # 10))) (PyInt 5)))
           world0 (PyStr "running") (PyInt 5) (999 # 10)%Q 5
           eq_refl eq_refl eq_refl).
  - reflexivity.
  - left. lia.
Defined.

End LifecycleFacts.

(** ** The downloaded file *)
Module StreamFacts.
Import ProjectDataManager ManagerFacts DownloadFacts.

Lemma finish_outcome (self : manager) (file_key : string) (E : env)
    (w : world) :
  let filepath := OsPath.join (path self) file_key in
  let (r, w') := finish self file_key E w in
  posts w' = posts w /\
  (exists evs, out w' = (out w ++ evs)%list /\
     (forall p c, file_content p c evs = c) /\ opened evs = []) /\
  match r with
  | Ok _ =>
      ready w' = true /\
      data_path w' =
        Some (match type self with
              | images => fst (OsPath.splitext filepath)
              | annotations => filepath
              end)
  | Raise _ => ready w' = ready w /\ data_path w' = data_path w
  end.
Proof.
  cbv zeta. destruct (type self) eqn:Hty.
  - destruct (extractall E (OsPath.join (path self) file_key) (path self))
      as [e |] eqn:Hx.
    + unfold finish, print, extract, bind, ask. rewrite Hty.
      rewrite !emit_eq, Hx. unfold raise, logged.
      cbn [posts out data_path ready].
      split; [reflexivity |]. split; [| split; reflexivity].
      rewrite <- app_assoc. eexists. split; [reflexivity |].
      split; [intros p c |]; reflexivity.
    + rewrite (finish_images _ _ _ _ Hty Hx). cbn [posts out data_path ready].
      split; [reflexivity |]. split; [| split; reflexivity].
      eexists. split; [reflexivity |]. split; [intros p c |]; reflexivity.
  - rewrite (finish_annotations _ _ _ _ Hty). cbn [posts out data_path ready].
    split; [reflexivity |]. split; [| split; reflexivity].
    eexists. split; [reflexivity |]. split; [intros p c |]; reflexivity.
Qed.

(** A download is all or nothing for the manager.  Whatever the server
    and the file system do, [_download_file] makes no post; if it returns,
    the ready event is set and the data path is the downloaded file
    (annotations) or that path without its extension (images); if it
    raises, at whatever point, the ready event and the data path are left
    as they were. *)
Theorem download_outcome (self : manager) (file_key : string) (E : env)
    (w : world) :
  let filepath := OsPath.join (path self) file_key in
  let (r, w') := _download_file self file_key E w in
  posts w' = posts w /\
  match r with
  | Ok _ =>
      ready w' = true /\
      data_path w' =
        Some (match type self with
              | images => fst (OsPath.splitext filepath)
              | annotations => filepath
              end)
  | Raise _ => ready w' = ready w /\ data_path w' = data_path w
  end.
Proof.
  cbv zeta.
  destruct (stream_completes self E file_key) as [[total blocks] |] eqn:Hs.
  - rewrite (download_checked _ _ _ _ _ _ Hs).
    destruct (negb (total =? 0) && negb (written blocks =? total)).
    + repeat split.
    + pose proof (finish_outcome self file_key E
                    (logged (stream_events self E file_key blocks) w)) as H.
      cbv zeta in H.
      destruct (finish self file_key E _) as [r w'].
      destruct H as (Hp & _ & Hr). split; [exact Hp | exact Hr].
  - unfold stream_completes in Hs.
    unfold _download_file, print, get, open_, int, bind, ask, lift, emit.
    cbn [posts out data_path ready].
    destruct (requests_get E (signed_url self E file_key)) as [r | e];
      [| repeat split].
    destruct (py_int E _) as [total | e]; [| repeat split].
    destruct (open_wb E (OsPath.join (path self) file_key));
      [repeat split |].
    unfold ret. rewrite write_blocks_eq. cbn [logged posts out data_path ready].
    destruct (stream_error r); [repeat split | discriminate].
Qed.








(** A content-length header that is not an integer makes the download
    raise [ValueError] right after the request: the file is not opened and
    nothing is written. *)
Theorem download_bad_length (self : manager) (file_key : string) (E : env)
    (w : world) (r : stream) (s : string) :
  requests_get E (signed_url self E file_key) = Ok r ->
  content_length r = Some s ->
  int_of_str E s = None ->
  _download_file self file_key E w =
  (Raise (Exc ValueError_ EmptyString),
   logged [Print ("Downloading file: " ++ file_key) LF;
           Get (signed_url self E file_key) (headers self)] w).
Proof.
  intros Hr Hc Hi.
  unfold _download_file, print, get, int, bind, ask, lift.
  rewrite !emit_eq, Hr, Hc. cbn [py_int]. rewrite Hi, logged_app. reflexivity.
Qed.

Lemma download_bad_length_witness :
  fst (_download_file (Samples.manager_of images) "imgs.zip"
         (Samples.serves (Some "12 bytes") 12) world0)
  = Raise (Exc ValueError_ EmptyString) /\
  opened (out (snd (_download_file (Samples.manager_of images) "imgs.zip"
                      (Samples.serves (Some "12 bytes") 12) world0))) = [].
Proof.
  rewrite (download_bad_length (Samples.manager_of images) "imgs.zip"
             (Samples.serves (Some "12 bytes") 12) world0
             {| content_length := Some "12 bytes";
                iter_content := [repeat Byte.x00 12];
                stream_error := None |} "12 bytes" eq_refl eq_refl eq_refl).
  split; reflexivity.
Defined.





End StreamFacts.

(** ** Paths *)
Module PathFacts.

Lemma rfind_from_spec (c : ascii) :
  forall (s : string) (i last : Z),
    OsPath.rfind_from c s i last = last \/
    exists k, OsPath.rfind_from c s i last = i + Z.of_nat k /\
              String.get k s = Some c.
Proof.
  induction s as [| a s IH]; intros i last; cbn [OsPath.rfind_from].
  - left. reflexivity.
  - destruct (IH (i + 1) (if Ascii.eqb a c then i else last))
      as [H | (k & Hk & Hget)].
    + rewrite H. destruct (Ascii.eqb_spec a c) as [-> | _].
      * right. exists 0%nat. split; [lia | reflexivity].
      * left. reflexivity.
    + right. exists (S k). split; [rewrite Hk; lia | exact Hget].
Qed.

Lemma rfind_spec (c : ascii) (s : string) :
  OsPath.rfind c s = -1 \/
  exists k, OsPath.rfind c s = Z.of_nat k /\ String.get k s = Some c.
Proof.
  unfold OsPath.rfind.
  destruct (rfind_from_spec c s 0 (-1)) as [H | (k & Hk & Hget)];
    [left; exact H | right; exists k; split; [rewrite Hk; lia | exact Hget]].
Qed.

Lemma substring_from (s : string) :
  forall (k : nat) (c : ascii),
    String.get k s = Some c ->
    exists rest, substring k (String.length s - k) s = String c rest.
Proof.
  induction s as [| a s IH]; intros k c H; [destruct k; discriminate |].
  destruct k as [| k].
  - injection H as ->. cbn. eauto.
  - cbn [String.get] in H. destruct (IH k c H) as [rest Hrest].
    exists rest. cbn [String.length Nat.sub substring]. exact Hrest.
Qed.

(** [os.path.splitext] cuts a path into a root and an extension that is
    empty or starts with a period, and putting them together again gives
    the path back; so the data path of an images export is the archive
    path itself or the archive path without a final ".ext". *)
Theorem splitext_extension (p : string) :
  fst (OsPath.splitext p) ++ snd (OsPath.splitext p) = p /\
  (snd (OsPath.splitext p) = EmptyString \/
   exists rest, snd (OsPath.splitext p) = String "." rest).
Proof.
  split; [apply DownloadFacts.splitext_joins |].
  unfold OsPath.splitext.
  destruct (Z.ltb_spec (OsPath.rfind "/" p) (OsPath.rfind "." p)) as [Hlt | Hge];
    cbn [andb]; [| left; reflexivity].
  destruct (OsPath.skip_leading_dots p _ _); cbn [snd]; [| left; reflexivity].
  right.
  destruct (rfind_spec "/" p) as [Hs | (ks & Hs & _)];
    destruct (rfind_spec "." p) as [Hd | (kd & Hd & Hget)];
    try (rewrite Hs, Hd in Hlt; lia);
    rewrite Hd, Nat2Z.id; apply substring_from; exact Hget.
Qed.

End PathFacts.
